(** * Groq MCP demo script: a shallow embedding of [scripts/groq_mcp_demo.py]

    The script reads three environment variables, builds one SDK client and
    a list of MCP tool descriptors, and runs four demo routines in a row.
    Everything it does is visible as printing (to the standard or the error
    stream), as constructing the client, as one chat-completion request per
    routine, or as the exit status of the process.  The embedding below keeps
    exactly these observations: a computation is a pair of an outcome and the
    chronological list of events it produced. *)

From Stdlib Require Import String Ascii ZArith List DecimalString.
From stdpp Require Import gmap strings.
Import ListNotations.
Open Scope string_scope.
Open Scope list_scope.
Open Scope Z_scope.

(** ** Python values the script manipulates *)

(** [chr(n)] for a one-byte character. *)
Definition chr (n : nat) : string := String (ascii_of_nat n) "".

(** [s * n] on strings. *)
Fixpoint str_mul (s : string) (n : nat) : string :=
  match n with
  | O => ""
  | S n' => s +:+ str_mul s n'
  end.

(** [s.replace(old, new)] where [old] is a single character. *)
Fixpoint str_replace (old : ascii) (new : string) (s : string) : string :=
  match s with
  | EmptyString => ""
  | String c rest =>
      if Ascii.eqb c old then new +:+ str_replace old new rest
      else String c (str_replace old new rest)
  end.

(** Truth value of an [Optional[str]]: [None] and the empty string are
    false, every other string is true. *)
Definition truthy (v : option string) : bool :=
  match v with
  | Some s => negb (String.eqb s "")
  | None => false
  end.

(** [str(v)] of an [Optional[str]], as [print] and f-strings render it. *)
Definition py_str (v : option string) : string :=
  match v with
  | Some s => s
  | None => "None"
  end.

(** Decimal rendering of Python integers. *)
Definition str_of_int (z : Z) : string := NilZero.string_of_int (Z.to_int z).
Definition str_of_nat (n : nat) : string := NilZero.string_of_uint (Nat.to_uint n).

(** ** Data model *)

(** An MCP tool descriptor: the dict literals of the [tools] list. *)
Record tool := {
  tool_type : string;
  server_url : string;
  headers : option (gmap string string)
}.

(** The SDK client handle, as constructed by [OpenAI(api_key=, base_url=)]. *)
Record OpenAI := {
  api_key : option string;
  base_url : string
}.

(** Keyword arguments of [client.chat.completions.create]; a message is a
    (role, content) pair, [req_tools] is [None] when [tools=] is not passed. *)
Record request := {
  model : string;
  messages : list (string * string);
  req_tools : option (list tool);
  max_tokens : Z
}.

(** The parts of a completion response the script reads. *)
Record function_call := {
  name : string;
  arguments : string
}.

(** The [function] attribute of a tool-call record: the record has no such
    attribute, the attribute is there with value [None], or it holds a
    function object. *)
Inductive function_attr :=
| NoAttribute
| AttrNone
| Attr (f : function_call).

Record tool_call := {
  tc_type : string;
  function : function_attr
}.

Record message := {
  content : option string;
  tool_calls : option (list tool_call)
}.

Record choice := {
  choice_message : message
}.

Record completion_usage := {
  total_tokens : Z
}.

Record response := {
  choices : list choice;
  usage : option completion_usage
}.

(** Exceptions: instances of (subclasses of) Python's [Exception].
    [exn_str] is [str(error)]; [status_code] is [None] when the object has
    no such attribute. *)
Inductive exn_class :=
| JSONDecodeError
| IndexError
| OtherException (class_name : string).

Record exn := {
  exn_cls : exn_class;
  exn_str : string;
  status_code : option Z
}.

Definition is_JSONDecodeError (e : exn) : bool :=
  match exn_cls e with
  | JSONDecodeError => true
  | _ => false
  end.

(** ** Observable events and the computation monad *)

Inductive event :=
| Stdout (text : string)            (* one [print(text)] *)
| Stderr (text : string)            (* one [print(text, file=sys.stderr)] *)
| NewClient (c : OpenAI)            (* the [OpenAI(...)] constructor ran *)
| Create (c : OpenAI) (r : request) (* one completion request was issued *).

(** How a piece of script ends: it returns, an exception propagates out of
    it, or [sys.exit] was called. *)
Inductive outcome (A : Type) :=
| Return (a : A)
| Raise (e : exn)
| Exit (code : Z).
Arguments Return {A} a.
Arguments Raise {A} e.
Arguments Exit {A} code.

Definition io (A : Type) : Type := outcome A * list event.

Definition io_bind {A B : Type} (f : A → io B) (m : io A) : io B :=
  match m with
  | (Return a, t) => let (o, t') := f a in (o, t ++ t')
  | (Raise e, t) => (Raise e, t)
  | (Exit c, t) => (Exit c, t)
  end.

#[global] Instance io_ret : MRet io := λ A a, (Return a, []).
#[global] Instance io_mbind : MBind io := λ A B f m, io_bind f m.

Definition print (text : string) : io unit := (Return tt, [Stdout text]).
Definition eprint (text : string) : io unit := (Return tt, [Stderr text]).
Definition raise {A : Type} (e : exn) : io A := (Raise e, []).
Definition sys_exit {A : Type} (code : Z) : io A := (Exit code, []).

(** [try: body / except Exception as error: handler error].  Every [exn] is
    an [Exception]; [sys.exit] raises [SystemExit], which is not, so an exit
    passes through. *)
Definition try_except {A : Type} (body : io A) (handler : exn → io A) : io A :=
  match body with
  | (Raise e, t) => let (o, t') := handler e in (o, t ++ t')
  | other => other
  end.

(** [try: body / except json.JSONDecodeError: handler]. *)
Definition try_except_JSONDecodeError {A : Type} (body : io A) (handler : io A) : io A :=
  match body with
  | (Raise e, t) =>
      if is_JSONDecodeError e then let (o, t') := handler in (o, t ++ t')
      else (Raise e, t)
  | other => other
  end.

(** [for index, x in enumerate(items, start): body index x]. *)
Fixpoint for_enumerate {A : Type} (body : nat → A → io unit) (start : nat) (items : list A)
  : io unit :=
  match items with
  | [] => mret tt
  | x :: rest => body start x ;; for_enumerate body (S start) rest
  end.

(** Exit status of the process, given how the script ended: 0 when it ran
    to its end, the argument of [sys.exit], 1 for an uncaught exception. *)
Definition exit_status {A : Type} (o : outcome A) : Z :=
  match o with
  | Return _ => 0
  | Raise _ => 1
  | Exit code => code
  end.

(** Projections of a trace. *)
Definition requests_of (t : list event) : list request :=
  omap (λ ev, match ev with Create _ r => Some r | _ => None end) t.

Definition stderr_of (t : list event) : list string :=
  omap (λ ev, match ev with Stderr s => Some s | _ => None end) t.

Definition stdout_of (t : list event) : list string :=
  omap (λ ev, match ev with Stdout s => Some s | _ => None end) t.

(** An event that is a plain [print] to the standard stream. *)
Definition is_stdout (ev : event) : Prop :=
  match ev with
  | Stdout _ => True
  | _ => False
  end.

(** ** What lies outside the script

    The provider behind the SDK client and the two library calls whose
    results the script only prints.  [json_loads s] is what
    [json.loads(s)] does: it returns a value or raises, a [JSONDecodeError]
    or an exception of another class ([ValueError] for an integer of more
    than 4300 digits, [RecursionError] for deep nesting);
    [json_dumps_indent2 v] is what [json.dumps(v, indent=2)] does, likewise;
    [message_json m] is
    [json.dumps(m.model_dump() if hasattr(m, 'model_dump') else m.__dict__,
    indent=2, default=str)]; [create_reply] is what
    [client.chat.completions.create] does with a request: it returns a
    response or raises. *)
Record world := {
  pyobj : Type;
  json_loads : string → pyobj + exn;
  json_dumps_indent2 : pyobj → string + exn;
  message_json : message → string;
  create_reply : OpenAI → request → response + exn
}.

(** ** Module level: configuration, client and tool list *)

Record globals := {
  GROQ_API_KEY : option string;
  DEFAULT_GROQ_MODEL : string;
  FIRECRAWL_API_KEY : option string;
  client : OpenAI;
  tools : list tool
}.

Definition new_OpenAI (key : option string) (url : string) : io OpenAI :=
  let c := {| api_key := key; base_url := url |} in (Return c, [NewClient c]).

Definition huggingface_tool : tool :=
  {| tool_type := "mcp";
     server_url := "https://huggingface.co/mcp";
     headers := None |}.

Definition firecrawl_tool (key : option string) : tool :=
  {| tool_type := "mcp";
     server_url := "https://mcp.firecrawl.dev/";
     headers := Some {[ "Authorization" := "Bearer " +:+ py_str key ]} |}.

Definition usage_message : list event :=
  [ Stderr "❌ Error: GROQ_API_KEY environment variable is required";
    Stderr "   Get your API key from https://console.groq.com/keys";
    Stderr "   Usage: GROQ_API_KEY=gsk_... python scripts/groq_mcp_demo.py" ].

(** Lines 27-73 of the script. *)
Definition module_init (environ : gmap string string) : io globals :=
  let GROQ_API_KEY := environ !! "GROQ_API_KEY" in
  let DEFAULT_GROQ_MODEL := default "llama-3.3-70b-versatile" (environ !! "DEFAULT_GROQ_MODEL") in
  let FIRECRAWL_API_KEY := environ !! "FIRECRAWL_API_KEY" in
  (if negb (truthy GROQ_API_KEY) then
     eprint "❌ Error: GROQ_API_KEY environment variable is required";;
     eprint "   Get your API key from https://console.groq.com/keys";;
     eprint "   Usage: GROQ_API_KEY=gsk_... python scripts/groq_mcp_demo.py";;
     sys_exit 1
   else mret tt);;
  client ← new_OpenAI GROQ_API_KEY "https://api.groq.com/openai/v1";
  print "🚀 Groq MCP Demo - Python";;
  print (str_mul "=" 60);;
  print ("Model: " +:+ DEFAULT_GROQ_MODEL);;
  print "Groq API: Configured ✓";;
  let tools := [huggingface_tool] in
  print "Huggingface MCP: Enabled ✓";;
  tools ← (if truthy FIRECRAWL_API_KEY then
             let tools := tools ++ [firecrawl_tool FIRECRAWL_API_KEY] in
             print "Firecrawl MCP: Enabled ✓";;
             mret tools
           else
             print "Firecrawl MCP: Disabled (no API key)";;
             mret tools);
  print (str_mul "=" 60);;
  print "";;
  mret {| GROQ_API_KEY := GROQ_API_KEY;
          DEFAULT_GROQ_MODEL := DEFAULT_GROQ_MODEL;
          FIRECRAWL_API_KEY := FIRECRAWL_API_KEY;
          client := client;
          tools := tools |}.

(** ** The completion call *)

(** [client.chat.completions.create(...)]: the request goes out, then the
    call returns the response or raises. *)
Definition chat_completions_create (w : world) (c : OpenAI) (r : request) : io response :=
  (match create_reply w c r with
   | inl resp => Return resp
   | inr error => Raise error
   end, [Create c r]).

(** [response.choices[0]]. *)
Definition first_choice (resp : response) : io choice :=
  match choices resp with
  | ch :: _ => mret ch
  | [] => raise {| exn_cls := IndexError;
                   exn_str := "list index out of range";
                   status_code := None |}
  end.

(** [f"✓ Completed in {response.usage.total_tokens if response.usage else 0} tokens"]. *)
Definition completed_line (resp : response) : string :=
  "✓ Completed in "
  +:+ str_of_int (match usage resp with Some u => total_tokens u | None => 0 end)
  +:+ " tokens".

(** [f"❌ Error: {error}"]. *)
Definition error_line (error : exn) : string := "❌ Error: " +:+ exn_str error.

(** [hasattr(error, 'status_code') and error.status_code == code]. *)
Definition status_is (error : exn) (code : Z) : bool :=
  match status_code error with
  | Some c => c =? code
  | None => false
  end.

(** ** Demo 1: simple chat completion without MCP tools *)

Definition demo1_request (g : globals) : request :=
  {| model := DEFAULT_GROQ_MODEL g;
     messages := [("user", "Write a 4-line rap verse about artificial intelligence.")];
     req_tools := None;
     max_tokens := 150 |}.

Definition demo1_simple_completion (w : world) (g : globals) : io unit :=
  print "📝 Demo 1: Simple Chat Completion (No MCP)";;
  print (str_mul "-" 60);;
  try_except
    (response ← chat_completions_create w (client g) (demo1_request g);
     print "Response:";;
     ch ← first_choice response;
     print (py_str (content (choice_message ch)));;
     print "";;
     print (completed_line response))
    (λ error,
       eprint (error_line error);;
       if status_is error 401 then eprint "   Check your GROQ_API_KEY" else mret tt);;
  print "".

(** ** Demo 2: chat completion with MCP tools *)

Definition demo2_request (g : globals) : request :=
  {| model := DEFAULT_GROQ_MODEL g;
     messages := [("user", "What are some popular open-source language models on Hugging Face? List 3 with brief descriptions.")];
     req_tools := Some (tools g);
     max_tokens := 500 |}.

(** A library call that returns or raises. *)
Definition call {A : Type} (result : A + exn) : io A :=
  match result with
  | inl a => mret a
  | inr error => raise error
  end.

(** Reading attribute [attr] of [None]. *)
Definition none_has_no_attribute (attr : string) : exn :=
  {| exn_cls := OtherException "AttributeError";
     exn_str := "'NoneType' object has no attribute '" +:+ attr +:+ "'";
     status_code := None |}.

(** Body of the loop over [message.tool_calls] (lines 134-142). *)
Definition show_tool_call (w : world) (index : nat) (tc : tool_call) : io unit :=
  tool_name ← (match function tc with
               | Attr f => mret (name f)
               | AttrNone => raise (none_has_no_attribute "name")
               | NoAttribute => mret (tc_type tc)
               end);
  print (chr 10 +:+ "  " +:+ str_of_nat index +:+ ". " +:+ tool_name);;
  match function tc with
  | Attr f =>
      if truthy (Some (arguments f)) then
        try_except_JSONDecodeError
          (args ← call (json_loads w (arguments f));
           args_str ← call (json_dumps_indent2 w args);
           print ("     Arguments: "
                  +:+ str_replace (ascii_of_nat 10) (chr 10 +:+ "     ") args_str))
          (print ("     Arguments: " +:+ arguments f))
      else mret tt
  | AttrNone => raise (none_has_no_attribute "arguments")
  | NoAttribute => mret tt
  end.

Definition demo2_mcp_completion (w : world) (g : globals) : io unit :=
  print "🔧 Demo 2: Chat Completion with MCP Tools";;
  print (str_mul "-" 60);;
  try_except
    (response ← chat_completions_create w (client g) (demo2_request g);
     ch ← first_choice response;
     let message := choice_message ch in
     (if truthy (content message) then
        print "Model Reasoning:";;
        print (py_str (content message));;
        print ""
      else mret tt);;
     (match tool_calls message with
      | Some calls =>
          if (0 <? length calls)%nat then
            print "🔧 MCP Tool Calls:";;
            for_enumerate (show_tool_call w) 1%nat calls;;
            print ""
          else mret tt
      | None => mret tt
      end);;
     print "Final Message:";;
     print (message_json w message);;
     print "";;
     print (completed_line response))
    (λ error,
       eprint (error_line error);;
       match status_code error with
       | Some code =>
           if code =? 401 then eprint "   Check your GROQ_API_KEY"
           else if code =? 424 then
             eprint "   MCP server dependency failed";;
             eprint "   Check that MCP servers are reachable"
           else mret tt
       | None => mret tt
       end);;
  print "".

(** ** Demo 3: tool discovery *)

Definition demo3_request (g : globals) : request :=
  {| model := DEFAULT_GROQ_MODEL g;
     messages := [("user", "What tools do you have access to? Please list them.")];
     req_tools := Some (tools g);
     max_tokens := 300 |}.

Definition demo3_discover_tools (w : world) (g : globals) : io unit :=
  print "🔍 Demo 3: Tool Discovery";;
  print (str_mul "-" 60);;
  try_except
    (response ← chat_completions_create w (client g) (demo3_request g);
     print "Response:";;
     ch ← first_choice response;
     print (py_str (content (choice_message ch)));;
     print "";;
     print (completed_line response))
    (λ error, eprint (error_line error));;
  print "".

(** ** Demo 4: Firecrawl MCP, when enabled *)

Definition demo4_request (g : globals) : request :=
  {| model := DEFAULT_GROQ_MODEL g;
     messages := [("user", "Can you scrape the latest news from a tech website and summarize the top story?")];
     req_tools := Some (tools g);
     max_tokens := 400 |}.

Definition demo4_firecrawl_mcp (w : world) (g : globals) : io unit :=
  if negb (truthy (FIRECRAWL_API_KEY g)) then
    print "⏭️  Demo 4: Skipped (Firecrawl not configured)";;
    print "   Set FIRECRAWL_API_KEY to enable web scraping demo";;
    print ""
  else
    print "🌐 Demo 4: Firecrawl MCP Web Scraping";;
    print (str_mul "-" 60);;
    try_except
      (response ← chat_completions_create w (client g) (demo4_request g);
       ch ← first_choice response;
       let message := choice_message ch in
       print "Response:";;
       (if truthy (content message) then print (py_str (content message))
        else print (message_json w message));;
       print "";;
       print (completed_line response))
      (λ error,
         eprint (error_line error);;
         if status_is error 424 then
           eprint "   Firecrawl MCP server failed";;
           eprint "   Check your FIRECRAWL_API_KEY"
         else mret tt);;
    print "".

(** ** Entry point *)

Definition summary : list event :=
  [ Stdout (str_mul "=" 60);
    Stdout "✅ All demos completed successfully!";
    Stdout "";
    Stdout "Next steps:";
    Stdout "  - Set FIRECRAWL_API_KEY to enable web scraping";
    Stdout "  - Try different models (llama-3.1-8b-instant, etc.)";
    Stdout "  - Read docs/groq-mcp.md for more information";
    Stdout (str_mul "=" 60) ].

(** [f"❌ Fatal error: {error}"]. *)
Definition fatal_line (error : exn) : string := "❌ Fatal error: " +:+ exn_str error.

(** The body of [main]'s [try].  Python looks the four routine names up when
    [main] runs, so the body is written over whatever they are bound to. *)
Definition main_try (d1 d2 d3 d4 : io unit) : io unit :=
  d1;; d2;; d3;; d4;;
  print (str_mul "=" 60);;
  print "✅ All demos completed successfully!";;
  print "";;
  print "Next steps:";;
  print "  - Set FIRECRAWL_API_KEY to enable web scraping";;
  print "  - Try different models (llama-3.1-8b-instant, etc.)";;
  print "  - Read docs/groq-mcp.md for more information";;
  print (str_mul "=" 60).

Definition main_with (d1 d2 d3 d4 : io unit) : io unit :=
  try_except (main_try d1 d2 d3 d4)
    (λ error, eprint (fatal_line error);; sys_exit 1).

Definition main (w : world) (g : globals) : io unit :=
  main_with (demo1_simple_completion w g) (demo2_mcp_completion w g)
            (demo3_discover_tools w g) (demo4_firecrawl_mcp w g).

(** Running the file as a program: the module level, then [main()]. *)
Definition script (w : world) (environ : gmap string string) : io unit :=
  g ← module_init environ; main w g.

(** ** Test doubles

    A provider that answers every request the same way, a table-driven
    stand-in for the json module, and a few environments; the concrete runs
    below are instances of the general theorems on them. *)

Definition unauthorized : exn :=
  {| exn_cls := OtherException "AuthenticationError";
     exn_str := "Error code: 401";
     status_code := Some 401 |}.

Definition failed_dependency : exn :=
  {| exn_cls := OtherException "APIStatusError";
     exn_str := "Error code: 424";
     status_code := Some 424 |}.

Definition connection_error : exn :=
  {| exn_cls := OtherException "APIConnectionError";
     exn_str := "Connection error.";
     status_code := None |}.

Definition text_response (text : option string) (u : option completion_usage) : response :=
  {| choices := [ {| choice_message := {| content := text; tool_calls := Some [] |} |} ];
     usage := u |}.

Definition json_decode_error : exn :=
  {| exn_cls := JSONDecodeError;
     exn_str := "Expecting value: line 1 column 1 (char 0)";
     status_code := None |}.

Definition int_digits_error : exn :=
  {| exn_cls := OtherException "ValueError";
     exn_str := "Exceeds the limit (4300 digits) for integer string conversion";
     status_code := None |}.

Fixpoint all_digits (s : string) : bool :=
  match s with
  | EmptyString => true
  | String c rest =>
      (48 <=? nat_of_ascii c)%nat && (nat_of_ascii c <=? 57)%nat && all_digits rest
  end.

Definition long_integer : string := str_mul "1" 4301.

Definition mock_json_loads (s : string) : string + exn :=
  if String.eqb s "{}" then inl "{}"
  else if String.eqb s "[1, 2]" then inl ("[" +:+ chr 10 +:+ "  1," +:+ chr 10 +:+ "  2" +:+ chr 10 +:+ "]")
  else if all_digits s && (4300 <? String.length s)%nat then inr int_digits_error
  else inr json_decode_error.

Definition mock_message_json (m : message) : string :=
  "{content: " +:+ py_str (content m) +:+ "}".

Definition mock_world (reply : response + exn) : world :=
  {| pyobj := string;
     json_loads := mock_json_loads;
     json_dumps_indent2 := λ v, inl v;
     message_json := mock_message_json;
     create_reply := λ _ _, reply |}.

Definition world_offline : world := mock_world (inr connection_error).
Definition world_401 : world := mock_world (inr unauthorized).
Definition world_424 : world := mock_world (inr failed_dependency).

Definition hello_response (u : option completion_usage) : response :=
  text_response (Some "hello") u.

Definition world_hello (u : option completion_usage) : world :=
  mock_world (inl (hello_response u)).

Definition search_call (args : string) : tool_call :=
  {| tc_type := "function";
     function := Attr {| name := "search"; arguments := args |} |}.

Definition mcp_call : tool_call := {| tc_type := "mcp"; function := NoAttribute |}.
Definition none_call : tool_call := {| tc_type := "function"; function := AttrNone |}.

Definition world_empty_text : world := mock_world (inl (text_response (Some "") None)).
Definition world_text (text : string) : world := mock_world (inl (text_response (Some text) None)).
Definition world_no_text : world := mock_world (inl (text_response None None)).

Definition env_groq : gmap string string :=
  {[ "GROQ_API_KEY" := "gsk_test" ]}.

Definition env_groq_firecrawl : gmap string string :=
  <[ "FIRECRAWL_API_KEY" := "fc-test" ]> env_groq.

Definition env_groq_empty_firecrawl : gmap string string :=
  <[ "FIRECRAWL_API_KEY" := "" ]> env_groq.

Definition env_empty_groq : gmap string string :=
  {[ "GROQ_API_KEY" := "" ]}.

Definition globals_groq : globals :=
  {| GROQ_API_KEY := Some "gsk_test";
     DEFAULT_GROQ_MODEL := "llama-3.3-70b-versatile";
     FIRECRAWL_API_KEY := None;
     client := {| api_key := Some "gsk_test"; base_url := "https://api.groq.com/openai/v1" |};
     tools := [huggingface_tool] |}.

Definition globals_groq_firecrawl : globals :=
  {| GROQ_API_KEY := Some "gsk_test";
     DEFAULT_GROQ_MODEL := "llama-3.3-70b-versatile";
     FIRECRAWL_API_KEY := Some "fc-test";
     client := {| api_key := Some "gsk_test"; base_url := "https://api.groq.com/openai/v1" |};
     tools := [huggingface_tool; firecrawl_tool (Some "fc-test")] |}.

Definition globals_groq_empty_firecrawl : globals :=
  {| GROQ_API_KEY := Some "gsk_test";
     DEFAULT_GROQ_MODEL := "llama-3.3-70b-versatile";
     FIRECRAWL_API_KEY := Some "";
     client := {| api_key := Some "gsk_test"; base_url := "https://api.groq.com/openai/v1" |};
     tools := [huggingface_tool] |}.

Definition no_choices : response := {| choices := []; usage := None |}.
Definition world_no_choices : world := mock_world (inl no_choices).

Definition tools_message : message :=
  {| content := Some "";
     tool_calls := Some [ search_call "[1, 2]";
                          mcp_call;
                          search_call "not json" ] |}.

Definition tools_response : response :=
  {| choices := [ {| choice_message := tools_message |} ];
     usage := Some {| total_tokens := 42 |} |}.

Definition world_tools : world := mock_world (inl tools_response).

Definition long_integer_message : message :=
  {| content := None;
     tool_calls := Some [ search_call "{}"; search_call long_integer; mcp_call ] |}.

Definition long_integer_response : response :=
  {| choices := [ {| choice_message := long_integer_message |} ]; usage := None |}.

Definition world_long_integer : world := mock_world (inl long_integer_response).

Definition env_groq_empty_model : gmap string string :=
  <[ "DEFAULT_GROQ_MODEL" := "" ]> env_groq.

Definition globals_groq_empty_model : globals :=
  {| GROQ_API_KEY := Some "gsk_test";
     DEFAULT_GROQ_MODEL := "";
     FIRECRAWL_API_KEY := None;
     client := {| api_key := Some "gsk_test"; base_url := "https://api.groq.com/openai/v1" |};
     tools := [huggingface_tool] |}.

(** ** Shapes of traces, used to state the properties *)

(** The line that opens the display of one tool call. *)
Definition tool_call_heading (index : nat) (tool_name : string) : event :=
  Stdout (chr 10 +:+ "  " +:+ str_of_nat index +:+ ". " +:+ tool_name).

(** The trace ends with the output of a bare [print()]. *)
Definition ends_blank (t : list event) : Prop :=
  ∃ before, t = before ++ [Stdout ""].

(** The trace issues no request. *)
Definition quiet (t : list event) : Prop := requests_of t = [].

(** The computation runs to its end and returns. *)
Definition completes {A : Type} (m : io A) : Prop :=
  ∃ a t, m = (Return a, t).

(** An event that is output on one of the two streams. *)
Definition is_output (ev : event) : Prop :=
  match ev with
  | Stdout _ | Stderr _ => True
  | _ => False
  end.

(** The clients constructed, and the clients that requests went through. *)
Definition clients_of (t : list event) : list OpenAI :=
  omap (λ ev, match ev with NewClient c => Some c | _ => None end) t.

Definition callers_of (t : list event) : list OpenAI :=
  omap (λ ev, match ev with Create c _ => Some c | _ => None end) t.

(** The name under which a tool call is listed (line 134). *)
Definition tool_display_name (tc : tool_call) : string :=
  match function tc with
  | Attr f => name f
  | _ => tc_type tc
  end.

(** The calls whose display runs to its end: those without a [function]
    attribute, those with an empty argument string, and those whose argument
    string [json.loads] and [json.dumps] either handle or reject with a
    [JSONDecodeError]. *)
Definition displayable (w : world) (tc : tool_call) : bool :=
  match function tc with
  | NoAttribute => true
  | AttrNone => false
  | Attr f =>
      if truthy (Some (arguments f)) then
        match json_loads w (arguments f) with
        | inl v =>
            match json_dumps_indent2 w v with
            | inl _ => true
            | inr error => is_JSONDecodeError error
            end
        | inr error => is_JSONDecodeError error
        end
      else true
  end.

(** What routine 2 adds to the error line, by status code (lines 152-157). *)
Definition demo2_hints (error : exn) : list event :=
  if status_is error 401 then [Stderr "   Check your GROQ_API_KEY"]
  else if status_is error 424 then
    [ Stderr "   MCP server dependency failed";
      Stderr "   Check that MCP servers are reachable" ]
  else [].

(** Every tool call of the message is displayable (a message without a
    tool-call list has none). *)
Definition all_displayable (w : world) (m : message) : Prop :=
  Forall (λ tc, displayable w tc = true) (default [] (tool_calls m)).

(** The computation does not end in [sys.exit]. *)
Definition no_exit {A : Type} (o : outcome A) : Prop :=
  match o with
  | Exit _ => False
  | _ => True
  end.

(** The lines of a text: the pieces between line breaks, as
    [s.split(chr(10))] gives them. *)
Fixpoint lines (s : string) : list string :=
  match s with
  | EmptyString => [""]
  | String c rest =>
      if Ascii.eqb c (ascii_of_nat 10) then "" :: lines rest
      else match lines rest with
           | l :: ls => String c l :: ls
           | [] => [String c ""]
           end
  end.

(** The text has no line break. *)
Fixpoint single_line (s : string) : bool :=
  match s with
  | EmptyString => true
  | String c rest => negb (Ascii.eqb c (ascii_of_nat 10)) && single_line rest
  end.

(** * Properties *)

(** ** Small checks of the Python helpers *)

Example str_mul_rule : str_mul "-" 5 = "-----".
Proof. reflexivity. Qed.

Example str_replace_indents :
  str_replace (ascii_of_nat 10) (chr 10 +:+ "  ") ("a" +:+ chr 10 +:+ "b")
  = "a" +:+ chr 10 +:+ "  b".
Proof. reflexivity. Qed.

Example str_of_int_examples :
  str_of_int 0 = "0" ∧ str_of_int 150 = "150" ∧ str_of_int (-7) = "-7".
Proof. repeat split. Qed.

Example truthy_examples :
  truthy None = false ∧ truthy (Some "") = false ∧ truthy (Some "gsk_") = true.
Proof. repeat split. Qed.

(** ** Truth values *)

Lemma truthy_false_iff (v : option string) :
  truthy v = false ↔ v = None ∨ v = Some "".
Proof.
  destruct v as [[|c s]|]; simpl; split; intros H; auto.
  - discriminate.
  - destruct H as [H|H]; discriminate.
Qed.

Lemma truthy_true_iff (v : option string) :
  truthy v = true ↔ ∃ k, v = Some k ∧ k ≠ "".
Proof.
  destruct v as [[|c s]|]; simpl; split; intros H; try discriminate.
  - destruct H as (k & [= <-] & Hk). congruence.
  - exists (String c s). split; [reflexivity | discriminate].
  - reflexivity.
  - destruct H as (k & H & _). discriminate.
Qed.

(** ** Module level *)

Lemma module_init_missing_key (environ : gmap string string) :
  truthy (environ !! "GROQ_API_KEY") = false →
  module_init environ = (Exit 1, usage_message).
Proof.
  intros H. unfold module_init. rewrite H. reflexivity.
Qed.

Lemma module_init_with_key (environ : gmap string string) :
  truthy (environ !! "GROQ_API_KEY") = true →
  ∃ t, module_init environ =
    (Return {| GROQ_API_KEY := environ !! "GROQ_API_KEY";
               DEFAULT_GROQ_MODEL :=
                 default "llama-3.3-70b-versatile" (environ !! "DEFAULT_GROQ_MODEL");
               FIRECRAWL_API_KEY := environ !! "FIRECRAWL_API_KEY";
               client := {| api_key := environ !! "GROQ_API_KEY";
                            base_url := "https://api.groq.com/openai/v1" |};
               tools :=
                 if truthy (environ !! "FIRECRAWL_API_KEY")
                 then [huggingface_tool; firecrawl_tool (environ !! "FIRECRAWL_API_KEY")]
                 else [huggingface_tool] |}, t).
Proof.
  intros H. unfold module_init. rewrite H.
  destruct (truthy (environ !! "FIRECRAWL_API_KEY")); eexists; reflexivity.
Qed.

Lemma module_init_globals (environ : gmap string string) (g : globals) (t : list event) :
  module_init environ = (Return g, t) →
  truthy (environ !! "GROQ_API_KEY") = true
  ∧ FIRECRAWL_API_KEY g = environ !! "FIRECRAWL_API_KEY"
  ∧ tools g = (if truthy (environ !! "FIRECRAWL_API_KEY")
               then [huggingface_tool; firecrawl_tool (environ !! "FIRECRAWL_API_KEY")]
               else [huggingface_tool]).
Proof.
  intros H.
  destruct (truthy (environ !! "GROQ_API_KEY")) eqn:Hkey.
  - destruct (module_init_with_key environ Hkey) as [t' Ht'].
    rewrite Ht' in H. injection H as <- _. auto.
  - rewrite (module_init_missing_key environ Hkey) in H. discriminate.
Qed.

(** ** Traces *)

Lemma requests_of_app (t1 t2 : list event) :
  requests_of (t1 ++ t2) = requests_of t1 ++ requests_of t2.
Proof. apply omap_app. Qed.



Lemma requests_of_stdout (t : list event) :
  Forall is_stdout t → requests_of t = [].
Proof.
  induction 1 as [|ev t Hev _ IH]; [reflexivity|].
  destruct ev; simpl in Hev; try contradiction. exact IH.
Qed.

(** ** The tool-call display of demo 2 *)

Lemma show_tool_call_no_function (w : world) (index : nat) (tc : tool_call) :
  function tc = NoAttribute →
  show_tool_call w index tc = (Return tt, [tool_call_heading index (tc_type tc)]).
Proof. intros H. unfold show_tool_call. rewrite H. reflexivity. Qed.

Lemma show_tool_call_none_function (w : world) (index : nat) (tc : tool_call) :
  function tc = AttrNone →
  show_tool_call w index tc = (Raise (none_has_no_attribute "name"), []).
Proof. intros H. unfold show_tool_call. rewrite H. reflexivity. Qed.

Lemma show_tool_call_empty_arguments (w : world) (index : nat) (tc : tool_call)
    (f : function_call) :
  function tc = Attr f → arguments f = "" →
  show_tool_call w index tc = (Return tt, [tool_call_heading index (name f)]).
Proof. intros H Ha. unfold show_tool_call. rewrite H, Ha. reflexivity. Qed.

Lemma show_tool_call_loads_raises (w : world) (index : nat) (tc : tool_call)
    (f : function_call) (e : exn) :
  function tc = Attr f → arguments f ≠ "" →
  json_loads w (arguments f) = inr e →
  show_tool_call w index tc =
    (if is_JSONDecodeError e
     then (Return tt, [tool_call_heading index (name f);
                       Stdout ("     Arguments: " +:+ arguments f)])
     else (Raise e, [tool_call_heading index (name f)])).
Proof.
  intros H Ha Hl. unfold show_tool_call. rewrite H, Hl.
  destruct (arguments f) as [|c s]; [congruence|].
  cbn. destruct (is_JSONDecodeError e); reflexivity.
Qed.

Lemma show_tool_call_dumps_raises (w : world) (index : nat) (tc : tool_call)
    (f : function_call) (v : pyobj w) (e : exn) :
  function tc = Attr f → arguments f ≠ "" →
  json_loads w (arguments f) = inl v →
  json_dumps_indent2 w v = inr e →
  show_tool_call w index tc =
    (if is_JSONDecodeError e
     then (Return tt, [tool_call_heading index (name f);
                       Stdout ("     Arguments: " +:+ arguments f)])
     else (Raise e, [tool_call_heading index (name f)])).
Proof.
  intros H Ha Hl Hd. unfold show_tool_call. rewrite H, Hl.
  destruct (arguments f) as [|c s]; [congruence|].
  cbn. rewrite Hd. cbn. destruct (is_JSONDecodeError e); reflexivity.
Qed.


Lemma show_tool_call_valid_json (w : world) (index : nat) (tc : tool_call)
    (f : function_call) (v : pyobj w) (text : string) :
  function tc = Attr f →
  json_loads w (arguments f) = inl v →
  json_dumps_indent2 w v = inl text →
  arguments f ≠ "" →
  show_tool_call w index tc =
    (Return tt, [tool_call_heading index (name f);
                 Stdout ("     Arguments: "
                         +:+ str_replace (ascii_of_nat 10) (chr 10 +:+ "     ") text)]).
Proof.
  intros H Hl Hd Ha. unfold show_tool_call. rewrite H, Hl.
  destruct (arguments f) as [|c s]; [congruence|].
  cbn. rewrite Hd. reflexivity.
Qed.

(** The display of one call prints to the standard stream only, never
    exits, and returns exactly for the displayable calls. *)
Lemma show_tool_call_outcome (w : world) (index : nat) (tc : tool_call) :
  ∃ o t, show_tool_call w index tc = (o, t)
         ∧ Forall is_stdout t ∧ no_exit o
         ∧ (o = Return tt ↔ displayable w tc = true).
Proof.
  unfold displayable.
  destruct (function tc) as [| |f] eqn:Hf.
  - eexists _, _. split; [apply (show_tool_call_no_function w index tc Hf)|].
    repeat split; repeat constructor.
  - eexists _, _. split; [apply (show_tool_call_none_function w index tc Hf)|].
    repeat split; try constructor; discriminate.
  - destruct (String.eqb_spec (arguments f) "") as [Ha|Ha].
    + eexists _, _. split; [apply (show_tool_call_empty_arguments w index tc f Hf Ha)|].
      rewrite Ha. repeat split; repeat constructor.
    + assert (Ht : truthy (Some (arguments f)) = true)
        by (apply truthy_true_iff; eauto).
      rewrite Ht.
      destruct (json_loads w (arguments f)) as [v|e] eqn:Hl.
      * destruct (json_dumps_indent2 w v) as [text|e] eqn:Hd.
        -- eexists _, _.
           split; [apply (show_tool_call_valid_json w index tc f v text Hf Hl Hd Ha)|].
           repeat split; repeat constructor.
        -- rewrite (show_tool_call_dumps_raises w index tc f v e Hf Ha Hl Hd).
           destruct (is_JSONDecodeError e); eexists _, _; (split; [reflexivity|]);
             repeat split; repeat constructor; discriminate.
      * rewrite (show_tool_call_loads_raises w index tc f e Hf Ha Hl).
        destruct (is_JSONDecodeError e); eexists _, _; (split; [reflexivity|]);
          repeat split; repeat constructor; discriminate.
Qed.

(** The loop over the tool calls prints to the standard stream only and
    never exits. *)
Lemma tool_call_loop_outcome (w : world) (calls : list tool_call) (start : nat) :
  ∃ o t, for_enumerate (show_tool_call w) start calls = (o, t)
         ∧ Forall is_stdout t ∧ no_exit o.
Proof.
  revert start. induction calls as [|tc calls IH]; intros start.
  - exists (Return tt), []. repeat split; constructor.
  - destruct (show_tool_call_outcome w start tc) as (o1 & t1 & H1 & F1 & N1 & _).
    destruct (IH (S start)) as (o2 & t2 & H2 & F2 & N2).
    cbn [for_enumerate]. rewrite H1. unfold mbind, io_mbind, io_bind.
    destruct o1 as [[]|e|code]; [|eauto|contradiction].
    rewrite H2. exists o2, (t1 ++ t2). split; [reflexivity|].
    split; [apply Forall_app; auto | exact N2].
Qed.

Lemma ends_blank_one : ends_blank [Stdout ""].
Proof. exists []. reflexivity. Qed.

Lemma ends_blank_cons (ev : event) (t : list event) :
  ends_blank t → ends_blank (ev :: t).
Proof. intros [b ->]. exists (ev :: b). reflexivity. Qed.

Lemma ends_blank_app (t1 t2 : list event) :
  ends_blank t2 → ends_blank (t1 ++ t2).
Proof. intros [b ->]. exists (t1 ++ b). apply app_assoc. Qed.

Lemma quiet_nil : quiet [].
Proof. reflexivity. Qed.

Lemma quiet_stdout (s : string) (t : list event) : quiet t → quiet (Stdout s :: t).
Proof. intros H. exact H. Qed.

Lemma quiet_stderr (s : string) (t : list event) : quiet t → quiet (Stderr s :: t).
Proof. intros H. exact H. Qed.

Lemma quiet_app (t1 t2 : list event) : quiet t1 → quiet t2 → quiet (t1 ++ t2).
Proof. unfold quiet. intros H1 H2. rewrite requests_of_app, H1, H2. reflexivity. Qed.

Lemma quiet_prints (t : list event) : Forall is_stdout t → quiet t.
Proof. apply requests_of_stdout. Qed.

Ltac io_run :=
  cbn [mbind mret io_mbind io_ret io_bind try_except print eprint raise sys_exit
       fst snd app].

Ltac shape_tail :=
  repeat first
    [ apply ends_blank_one | apply ends_blank_cons | apply ends_blank_app
    | apply quiet_nil | apply quiet_stdout | apply quiet_stderr
    | apply quiet_app | apply quiet_prints; assumption ].

Ltac shape_done :=
  eexists; split; [reflexivity | split; shape_tail].

(** ** The four routines: each returns, after exactly one request (none
    when demo 4 is skipped), and ends with a blank line *)

Lemma demo1_shape (w : world) (g : globals) :
  ∃ rest, demo1_simple_completion w g =
            (Return tt, Stdout "📝 Demo 1: Simple Chat Completion (No MCP)"
                        :: Stdout (str_mul "-" 60)
                        :: Create (client g) (demo1_request g) :: rest)
          ∧ ends_blank rest ∧ quiet rest.
Proof.
  unfold demo1_simple_completion, chat_completions_create.
  destruct (create_reply w (client g) (demo1_request g)) as [resp|e]; io_run.
  - unfold first_choice. destruct (choices resp) as [|ch more]; io_run; shape_done.
  - destruct (status_is e 401); io_run; shape_done.
Qed.

Lemma demo3_shape (w : world) (g : globals) :
  ∃ rest, demo3_discover_tools w g =
            (Return tt, Stdout "🔍 Demo 3: Tool Discovery"
                        :: Stdout (str_mul "-" 60)
                        :: Create (client g) (demo3_request g) :: rest)
          ∧ ends_blank rest ∧ quiet rest.
Proof.
  unfold demo3_discover_tools, chat_completions_create.
  destruct (create_reply w (client g) (demo3_request g)) as [resp|e]; io_run.
  - unfold first_choice. destruct (choices resp) as [|ch more]; io_run; shape_done.
  - shape_done.
Qed.

Lemma demo2_shape (w : world) (g : globals) :
  ∃ rest, demo2_mcp_completion w g =
            (Return tt, Stdout "🔧 Demo 2: Chat Completion with MCP Tools"
                        :: Stdout (str_mul "-" 60)
                        :: Create (client g) (demo2_request g) :: rest)
          ∧ ends_blank rest ∧ quiet rest.
Proof.
  unfold demo2_mcp_completion, chat_completions_create.
  destruct (create_reply w (client g) (demo2_request g)) as [resp|e]; io_run.
  - unfold first_choice. destruct (choices resp) as [|ch more]; io_run; [shape_done|].
    destruct (truthy (content (choice_message ch)));
      destruct (tool_calls (choice_message ch)) as [calls|]; io_run;
      try shape_done;
      (destruct (0 <? length calls)%nat; io_run; [|shape_done];
       destruct (tool_call_loop_outcome w calls 1) as (o & t & -> & Ht & Ho);
       destruct o as [[]|e|code]; [| |contradiction]; io_run;
       [ shape_done
       | destruct (status_code e) as [c|]; io_run; [|shape_done];
         destruct (c =? 401); [|destruct (c =? 424)]; io_run; shape_done ]).
  - destruct (status_code e) as [code|]; io_run; [|shape_done].
    destruct (code =? 401); [| destruct (code =? 424)]; io_run; shape_done.
Qed.

Lemma demo4_shape (w : world) (g : globals) :
  truthy (FIRECRAWL_API_KEY g) = true →
  ∃ rest, demo4_firecrawl_mcp w g =
            (Return tt, Stdout "🌐 Demo 4: Firecrawl MCP Web Scraping"
                        :: Stdout (str_mul "-" 60)
                        :: Create (client g) (demo4_request g) :: rest)
          ∧ ends_blank rest ∧ quiet rest.
Proof.
  intros Hkey.
  unfold demo4_firecrawl_mcp, chat_completions_create. rewrite Hkey. cbn [negb].
  destruct (create_reply w (client g) (demo4_request g)) as [resp|e]; io_run.
  - unfold first_choice. destruct (choices resp) as [|ch more]; io_run; [shape_done|].
    destruct (truthy (content (choice_message ch))); io_run; shape_done.
  - destruct (status_is e 424); io_run; shape_done.
Qed.

Lemma demo4_skipped (w : world) (g : globals) :
  truthy (FIRECRAWL_API_KEY g) = false →
  demo4_firecrawl_mcp w g =
    (Return tt, [ Stdout "⏭️  Demo 4: Skipped (Firecrawl not configured)";
                  Stdout "   Set FIRECRAWL_API_KEY to enable web scraping demo";
                  Stdout "" ]).
Proof.
  intros Hkey. unfold demo4_firecrawl_mcp. rewrite Hkey. reflexivity.
Qed.

Lemma demo1_returns (w : world) (g : globals) :
  fst (demo1_simple_completion w g) = Return tt.
Proof. destruct (demo1_shape w g) as (rest & -> & _). reflexivity. Qed.

Lemma demo2_returns (w : world) (g : globals) :
  fst (demo2_mcp_completion w g) = Return tt.
Proof. destruct (demo2_shape w g) as (rest & -> & _). reflexivity. Qed.

Lemma demo3_returns (w : world) (g : globals) :
  fst (demo3_discover_tools w g) = Return tt.
Proof. destruct (demo3_shape w g) as (rest & -> & _). reflexivity. Qed.

Lemma demo4_returns (w : world) (g : globals) :
  fst (demo4_firecrawl_mcp w g) = Return tt.
Proof.
  destruct (truthy (FIRECRAWL_API_KEY g)) eqn:Hkey.
  - destruct (demo4_shape w g Hkey) as (rest & -> & _). reflexivity.
  - rewrite (demo4_skipped w g Hkey). reflexivity.
Qed.

(** ** The four routines when the completion call raises *)

Lemma demo1_on_error (w : world) (g : globals) (e : exn) :
  create_reply w (client g) (demo1_request g) = inr e →
  demo1_simple_completion w g =
    (Return tt,
     [ Stdout "📝 Demo 1: Simple Chat Completion (No MCP)";
       Stdout (str_mul "-" 60);
       Create (client g) (demo1_request g);
       Stderr (error_line e) ]
     ++ (if status_is e 401 then [Stderr "   Check your GROQ_API_KEY"] else [])
     ++ [Stdout ""]).
Proof.
  intros H. unfold demo1_simple_completion, chat_completions_create. rewrite H.
  io_run. destruct (status_is e 401); reflexivity.
Qed.

Lemma demo2_on_error (w : world) (g : globals) (e : exn) :
  create_reply w (client g) (demo2_request g) = inr e →
  demo2_mcp_completion w g =
    (Return tt,
     [ Stdout "🔧 Demo 2: Chat Completion with MCP Tools";
       Stdout (str_mul "-" 60);
       Create (client g) (demo2_request g);
       Stderr (error_line e) ]
     ++ (if status_is e 401 then [Stderr "   Check your GROQ_API_KEY"]
         else if status_is e 424 then
           [ Stderr "   MCP server dependency failed";
             Stderr "   Check that MCP servers are reachable" ]
         else [])
     ++ [Stdout ""]).
Proof.
  intros H. unfold demo2_mcp_completion, chat_completions_create, status_is. rewrite H.
  io_run. destruct (status_code e) as [code|]; [|reflexivity].
  destruct (code =? 401); [reflexivity|]. destruct (code =? 424); reflexivity.
Qed.

Lemma demo3_on_error (w : world) (g : globals) (e : exn) :
  create_reply w (client g) (demo3_request g) = inr e →
  demo3_discover_tools w g =
    (Return tt,
     [ Stdout "🔍 Demo 3: Tool Discovery";
       Stdout (str_mul "-" 60);
       Create (client g) (demo3_request g);
       Stderr (error_line e);
       Stdout "" ]).
Proof.
  intros H. unfold demo3_discover_tools, chat_completions_create. rewrite H.
  reflexivity.
Qed.

Lemma demo4_on_error (w : world) (g : globals) (e : exn) :
  truthy (FIRECRAWL_API_KEY g) = true →
  create_reply w (client g) (demo4_request g) = inr e →
  demo4_firecrawl_mcp w g =
    (Return tt,
     [ Stdout "🌐 Demo 4: Firecrawl MCP Web Scraping";
       Stdout (str_mul "-" 60);
       Create (client g) (demo4_request g);
       Stderr (error_line e) ]
     ++ (if status_is e 424 then
           [ Stderr "   Firecrawl MCP server failed";
             Stderr "   Check your FIRECRAWL_API_KEY" ]
         else [])
     ++ [Stdout ""]).
Proof.
  intros Hkey H. unfold demo4_firecrawl_mcp, chat_completions_create.
  rewrite Hkey, H. io_run. destruct (status_is e 424); reflexivity.
Qed.

(** ** The entry point over arbitrary routines *)

Lemma main_with_all_return (d1 d2 d3 d4 : io unit) :
  fst d1 = Return tt → fst d2 = Return tt → fst d3 = Return tt → fst d4 = Return tt →
  main_with d1 d2 d3 d4 =
    (Return tt, snd d1 ++ snd d2 ++ snd d3 ++ snd d4 ++ summary).
Proof.
  destruct d1 as [o1 t1], d2 as [o2 t2], d3 as [o3 t3], d4 as [o4 t4]. simpl.
  intros -> -> -> ->. reflexivity.
Qed.


Lemma main_runs_all (w : world) (g : globals) :
  main w g =
    (Return tt,
     snd (demo1_simple_completion w g) ++ snd (demo2_mcp_completion w g)
     ++ snd (demo3_discover_tools w g) ++ snd (demo4_firecrawl_mcp w g) ++ summary).
Proof.
  apply main_with_all_return;
    [apply demo1_returns | apply demo2_returns | apply demo3_returns | apply demo4_returns].
Qed.

(** ** The four routines when the completion call returns *)

Lemma demo1_on_success (w : world) (g : globals) (resp : response) (ch : choice)
    (more : list choice) :
  create_reply w (client g) (demo1_request g) = inl resp →
  choices resp = ch :: more →
  demo1_simple_completion w g =
    (Return tt,
     [ Stdout "📝 Demo 1: Simple Chat Completion (No MCP)";
       Stdout (str_mul "-" 60);
       Create (client g) (demo1_request g);
       Stdout "Response:";
       Stdout (py_str (content (choice_message ch)));
       Stdout "";
       Stdout (completed_line resp);
       Stdout "" ]).
Proof.
  intros H Hch. unfold demo1_simple_completion, chat_completions_create. rewrite H.
  io_run. unfold first_choice. rewrite Hch. reflexivity.
Qed.

Lemma demo4_on_success (w : world) (g : globals) (resp : response) (ch : choice)
    (more : list choice) :
  truthy (FIRECRAWL_API_KEY g) = true →
  create_reply w (client g) (demo4_request g) = inl resp →
  choices resp = ch :: more →
  demo4_firecrawl_mcp w g =
    (Return tt,
     [ Stdout "🌐 Demo 4: Firecrawl MCP Web Scraping";
       Stdout (str_mul "-" 60);
       Create (client g) (demo4_request g);
       Stdout "Response:";
       Stdout (if truthy (content (choice_message ch))
               then py_str (content (choice_message ch))
               else message_json w (choice_message ch));
       Stdout "";
       Stdout (completed_line resp);
       Stdout "" ]).
Proof.
  intros Hkey H Hch. unfold demo4_firecrawl_mcp, chat_completions_create.
  rewrite Hkey, H. io_run. unfold first_choice. rewrite Hch. io_run.
  destruct (truthy (content (choice_message ch))); reflexivity.
Qed.

Lemma demo2_on_success (w : world) (g : globals) (resp : response) (ch : choice)
    (more : list choice) :
  create_reply w (client g) (demo2_request g) = inl resp →
  choices resp = ch :: more →
  (∀ calls, tool_calls (choice_message ch) = Some calls →
     fst (for_enumerate (show_tool_call w) 1 calls) = Return tt) →
  demo2_mcp_completion w g =
    (Return tt,
     [ Stdout "🔧 Demo 2: Chat Completion with MCP Tools";
       Stdout (str_mul "-" 60);
       Create (client g) (demo2_request g) ]
     ++ (if truthy (content (choice_message ch)) then
           [ Stdout "Model Reasoning:";
             Stdout (py_str (content (choice_message ch)));
             Stdout "" ]
         else [])
     ++ match tool_calls (choice_message ch) with
        | Some calls =>
            if (0 <? length calls)%nat then
              [Stdout "🔧 MCP Tool Calls:"]
              ++ snd (for_enumerate (show_tool_call w) 1 calls)
              ++ [Stdout ""]
            else []
        | None => []
        end
     ++ [ Stdout "Final Message:";
          Stdout (message_json w (choice_message ch));
          Stdout "";
          Stdout (completed_line resp);
          Stdout "" ]).
Proof.
  intros H Hch Hloop. unfold demo2_mcp_completion, chat_completions_create. rewrite H.
  io_run. unfold first_choice. rewrite Hch. io_run.
  destruct (truthy (content (choice_message ch)));
    destruct (tool_calls (choice_message ch)) as [calls|]; io_run;
    try reflexivity;
    (destruct (0 <? length calls)%nat; io_run; [|reflexivity];
     specialize (Hloop calls eq_refl);
     destruct (for_enumerate (show_tool_call w) 1 calls) as [o t];
     cbn [fst] in Hloop; subst o; io_run;
     rewrite <- ?app_assoc; reflexivity).
Qed.

Lemma demo2_on_listing_error (w : world) (g : globals) (resp : response) (ch : choice)
    (more : list choice) (calls : list tool_call) (e : exn) (t : list event) :
  create_reply w (client g) (demo2_request g) = inl resp →
  choices resp = ch :: more →
  tool_calls (choice_message ch) = Some calls →
  for_enumerate (show_tool_call w) 1 calls = (Raise e, t) →
  demo2_mcp_completion w g =
    (Return tt,
     [ Stdout "🔧 Demo 2: Chat Completion with MCP Tools";
       Stdout (str_mul "-" 60);
       Create (client g) (demo2_request g) ]
     ++ (if truthy (content (choice_message ch)) then
           [ Stdout "Model Reasoning:";
             Stdout (py_str (content (choice_message ch)));
             Stdout "" ]
         else [])
     ++ [Stdout "🔧 MCP Tool Calls:"]
     ++ t
     ++ [Stderr (error_line e)]
     ++ demo2_hints e
     ++ [Stdout ""]).
Proof.
  intros H Hch Hcalls Hloop.
  unfold demo2_mcp_completion, chat_completions_create. rewrite H.
  io_run. unfold first_choice. rewrite Hch. io_run. rewrite Hcalls.
  destruct calls as [|tc calls]; [discriminate Hloop|].
  change (0 <? length (tc :: calls))%nat with true. cbv iota.
  unfold demo2_hints, status_is.
  destruct (truthy (content (choice_message ch))); io_run; rewrite Hloop; io_run;
    (destruct (status_code e) as [c|]; io_run;
     [ destruct (c =? 401); [|destruct (c =? 424)]; io_run | ];
     rewrite <- ?app_assoc; reflexivity).
Qed.

(** ** The routines on a response without choices *)

Lemma demo1_on_empty_choices (w : world) (g : globals) (resp : response) :
  create_reply w (client g) (demo1_request g) = inl resp → choices resp = [] →
  demo1_simple_completion w g =
    (Return tt,
     [ Stdout "📝 Demo 1: Simple Chat Completion (No MCP)";
       Stdout (str_mul "-" 60);
       Create (client g) (demo1_request g);
       Stdout "Response:";
       Stderr "❌ Error: list index out of range";
       Stdout "" ]).
Proof.
  intros H Hch. unfold demo1_simple_completion, chat_completions_create. rewrite H.
  io_run. unfold first_choice. rewrite Hch. reflexivity.
Qed.

Lemma demo2_on_empty_choices (w : world) (g : globals) (resp : response) :
  create_reply w (client g) (demo2_request g) = inl resp → choices resp = [] →
  demo2_mcp_completion w g =
    (Return tt,
     [ Stdout "🔧 Demo 2: Chat Completion with MCP Tools";
       Stdout (str_mul "-" 60);
       Create (client g) (demo2_request g);
       Stderr "❌ Error: list index out of range";
       Stdout "" ]).
Proof.
  intros H Hch. unfold demo2_mcp_completion, chat_completions_create. rewrite H.
  io_run. unfold first_choice. rewrite Hch. reflexivity.
Qed.

Lemma demo3_on_empty_choices (w : world) (g : globals) (resp : response) :
  create_reply w (client g) (demo3_request g) = inl resp → choices resp = [] →
  demo3_discover_tools w g =
    (Return tt,
     [ Stdout "🔍 Demo 3: Tool Discovery";
       Stdout (str_mul "-" 60);
       Create (client g) (demo3_request g);
       Stdout "Response:";
       Stderr "❌ Error: list index out of range";
       Stdout "" ]).
Proof.
  intros H Hch. unfold demo3_discover_tools, chat_completions_create. rewrite H.
  io_run. unfold first_choice. rewrite Hch. reflexivity.
Qed.

Lemma demo4_on_empty_choices (w : world) (g : globals) (resp : response) :
  truthy (FIRECRAWL_API_KEY g) = true →
  create_reply w (client g) (demo4_request g) = inl resp → choices resp = [] →
  demo4_firecrawl_mcp w g =
    (Return tt,
     [ Stdout "🌐 Demo 4: Firecrawl MCP Web Scraping";
       Stdout (str_mul "-" 60);
       Create (client g) (demo4_request g);
       Stderr "❌ Error: list index out of range";
       Stdout "" ]).
Proof.
  intros Hkey H Hch. unfold demo4_firecrawl_mcp, chat_completions_create.
  rewrite Hkey, H. io_run. unfold first_choice. rewrite Hch. reflexivity.
Qed.

Lemma demo3_on_success (w : world) (g : globals) (resp : response) (ch : choice)
    (more : list choice) :
  create_reply w (client g) (demo3_request g) = inl resp →
  choices resp = ch :: more →
  demo3_discover_tools w g =
    (Return tt,
     [ Stdout "🔍 Demo 3: Tool Discovery";
       Stdout (str_mul "-" 60);
       Create (client g) (demo3_request g);
       Stdout "Response:";
       Stdout (py_str (content (choice_message ch)));
       Stdout "";
       Stdout (completed_line resp);
       Stdout "" ]).
Proof.
  intros H Hch. unfold demo3_discover_tools, chat_completions_create. rewrite H.
  io_run. unfold first_choice. rewrite Hch. reflexivity.
Qed.

(** * The claims *)

(** ** Startup *)

(** C1, as stated, at a key that is present but empty: the variable is not
    absent, and startup is fatal all the same. *)
Lemma empty_groq_key_is_fatal :
  env_empty_groq !! "GROQ_API_KEY" = Some ""
  ∧ env_empty_groq !! "GROQ_API_KEY" ≠ None
  ∧ module_init env_empty_groq = (Exit 1, usage_message).
Proof.
  split; [reflexivity|]. split; [discriminate|]. reflexivity.
Qed.

(** C1, amended: when GROQ_API_KEY is absent or empty, the whole run
    consists of the three usage lines on the error stream and ends with exit
    status 1, so neither the client constructor nor any request comes before
    the exit; and this is the only way startup can fail: with any other value
    of the key the module level runs to its end. *)
Theorem startup_fatal_iff_groq_key_missing (w : world) (environ : gmap string string) :
  (environ !! "GROQ_API_KEY" = None ∨ environ !! "GROQ_API_KEY" = Some "" →
     script w environ =
       (Exit 1,
        [ Stderr "❌ Error: GROQ_API_KEY environment variable is required";
          Stderr "   Get your API key from https://console.groq.com/keys";
          Stderr "   Usage: GROQ_API_KEY=gsk_... python scripts/groq_mcp_demo.py" ])
     ∧ exit_status (fst (script w environ)) = 1)
  ∧ (¬ completes (module_init environ) →
     environ !! "GROQ_API_KEY" = None ∨ environ !! "GROQ_API_KEY" = Some "").
Proof.
  split.
  - intros H. apply truthy_false_iff in H.
    unfold script. rewrite (module_init_missing_key environ H). split; reflexivity.
  - intros Hfatal. apply truthy_false_iff.
    destruct (truthy (environ !! "GROQ_API_KEY")) eqn:Hkey; [|reflexivity].
    exfalso. apply Hfatal.
    destruct (module_init_with_key environ Hkey) as [t Ht].
    eexists _, t. exact Ht.
Qed.

Lemma startup_fatal_iff_groq_key_missing_witness :
  (script world_offline ∅ = (Exit 1, usage_message)
   ∧ exit_status (fst (script world_offline ∅)) = 1)
  ∧ (env_empty_groq !! "GROQ_API_KEY" = None ∨ env_empty_groq !! "GROQ_API_KEY" = Some "").
Proof.
  split.
  - apply (proj1 (startup_fatal_iff_groq_key_missing world_offline ∅)).
    left. reflexivity.
  - apply (proj2 (startup_fatal_iff_groq_key_missing world_offline
                    env_empty_groq)).
    intros (g & t & H). vm_compute in H. discriminate H.
Defined.

(** ** The tool list *)

(** C2, as stated, at a FIRECRAWL_API_KEY that is set to the empty string:
    the variable is set, and the list holds one descriptor, not two. *)
Lemma set_but_empty_firecrawl_key_gives_one_tool :
  env_groq_empty_firecrawl !! "FIRECRAWL_API_KEY" = Some ""
  ∧ fst (module_init env_groq_empty_firecrawl) = Return globals_groq_empty_firecrawl
  ∧ tools globals_groq_empty_firecrawl = [huggingface_tool]
  ∧ length (tools globals_groq_empty_firecrawl) ≠ 2%nat.
Proof.
  split; [reflexivity|]. split; [vm_compute; reflexivity|].
  split; [reflexivity | discriminate].
Qed.

(** C2, amended: after a successful startup the tool list is the Huggingface
    descriptor alone (without headers) when FIRECRAWL_API_KEY is absent or
    empty, and that descriptor followed by the Firecrawl one, whose
    Authorization header is "Bearer " followed by the key, when the key is a
    non-empty string; routines 2 and 3 each issue exactly one request, routine
    4 one request or none, and each of these requests carries that list. *)
Theorem tools_follow_firecrawl_key (w : world) (environ : gmap string string)
    (g : globals) (t : list event) :
  module_init environ = (Return g, t) →
  (environ !! "FIRECRAWL_API_KEY" = None ∨ environ !! "FIRECRAWL_API_KEY" = Some "" →
     tools g = [huggingface_tool])
  ∧ (∀ k, environ !! "FIRECRAWL_API_KEY" = Some k → k ≠ "" →
       tools g = [huggingface_tool; firecrawl_tool (Some k)]
       ∧ length (tools g) = 2%nat
       ∧ headers (firecrawl_tool (Some k)) ≫= (.!! "Authorization")
         = Some ("Bearer " +:+ k))
  ∧ headers huggingface_tool = None
  ∧ (requests_of (snd (demo2_mcp_completion w g)) = [demo2_request g]
     ∧ req_tools (demo2_request g) = Some (tools g))
  ∧ (requests_of (snd (demo3_discover_tools w g)) = [demo3_request g]
     ∧ req_tools (demo3_request g) = Some (tools g))
  ∧ (requests_of (snd (demo4_firecrawl_mcp w g))
       = (if truthy (FIRECRAWL_API_KEY g) then [demo4_request g] else [])
     ∧ req_tools (demo4_request g) = Some (tools g)).
Proof.
  intros Hinit.
  destruct (module_init_globals environ g t Hinit) as (_ & Hfc & Htools).
  split; [|split; [|split; [reflexivity|]]].
  - intros H. apply truthy_false_iff in H. rewrite Htools, H. reflexivity.
  - intros k H Hk.
    assert (Ht : truthy (environ !! "FIRECRAWL_API_KEY") = true)
      by (apply truthy_true_iff; eauto).
    rewrite Htools, Ht, H. split; [reflexivity|]. split; [reflexivity|].
    simpl. apply lookup_singleton_eq.
  - split; [|split]; (split; [|reflexivity]).
    + destruct (demo2_shape w g) as (rest & -> & _ & Hq). simpl. rewrite Hq. reflexivity.
    + destruct (demo3_shape w g) as (rest & -> & _ & Hq). simpl. rewrite Hq. reflexivity.
    + destruct (truthy (FIRECRAWL_API_KEY g)) eqn:Hkey.
      * destruct (demo4_shape w g Hkey) as (rest & -> & _ & Hq). simpl. rewrite Hq.
        reflexivity.
      * rewrite (demo4_skipped w g Hkey). reflexivity.
Qed.

Lemma tools_follow_firecrawl_key_witness :
  tools globals_groq = [huggingface_tool]
  ∧ (tools globals_groq_firecrawl = [huggingface_tool; firecrawl_tool (Some "fc-test")]
     ∧ length (tools globals_groq_firecrawl) = 2%nat
     ∧ headers (firecrawl_tool (Some "fc-test")) ≫= (.!! "Authorization")
       = Some "Bearer fc-test").
Proof.
  split.
  - apply (tools_follow_firecrawl_key world_offline env_groq
             globals_groq (snd (module_init env_groq))); [reflexivity|].
    left. reflexivity.
  - apply (tools_follow_firecrawl_key world_offline env_groq_firecrawl
             globals_groq_firecrawl (snd (module_init env_groq_firecrawl)));
      [reflexivity | reflexivity | discriminate].
Defined.

(** ** Empty values *)

(** C10: at each of the three truthiness tests an empty value behaves as an
    absent one.  Setting GROQ_API_KEY to the empty string gives the same run
    as removing it: the usage message and exit status 1.  Setting
    FIRECRAWL_API_KEY to the empty string gives the same run as removing it:
    the tool list keeps its single descriptor and routine 4 prints its skip
    notice. *)
Theorem empty_value_is_treated_as_absent (w : world) (environ : gmap string string) :
  (script w (<["GROQ_API_KEY" := ""]> environ) = script w (delete "GROQ_API_KEY" environ)
   ∧ script w (<["GROQ_API_KEY" := ""]> environ) = (Exit 1, usage_message)
   ∧ exit_status (fst (script w (<["GROQ_API_KEY" := ""]> environ))) = 1)
  ∧ (script w (<["FIRECRAWL_API_KEY" := ""]> environ)
       = script w (delete "FIRECRAWL_API_KEY" environ)
     ∧ ∀ g t, module_init (<["FIRECRAWL_API_KEY" := ""]> environ) = (Return g, t) →
         tools g = [huggingface_tool]
         ∧ demo4_firecrawl_mcp w g =
             (Return tt,
              [ Stdout "⏭️  Demo 4: Skipped (Firecrawl not configured)";
                Stdout "   Set FIRECRAWL_API_KEY to enable web scraping demo";
                Stdout "" ])).
Proof.
  split.
  - assert (Hempty : script w (<["GROQ_API_KEY" := ""]> environ) = (Exit 1, usage_message)).
    { unfold script. rewrite module_init_missing_key; [reflexivity|].
      rewrite lookup_insert_eq. reflexivity. }
    assert (Habsent : script w (delete "GROQ_API_KEY" environ) = (Exit 1, usage_message)).
    { unfold script. rewrite module_init_missing_key; [reflexivity|].
      rewrite lookup_delete_eq. reflexivity. }
    rewrite Hempty, Habsent. repeat split.
  - split.
    + unfold script, module_init.
      rewrite lookup_insert_eq, lookup_delete_eq.
      rewrite !lookup_insert_ne, !lookup_delete_ne by discriminate.
      destruct (truthy (environ !! "GROQ_API_KEY")); reflexivity.
    + intros g t Hinit.
      destruct (module_init_globals _ g t Hinit) as (_ & Hfc & Htools).
      rewrite lookup_insert_eq in Hfc, Htools. split; [exact Htools|].
      apply demo4_skipped. rewrite Hfc. reflexivity.
Qed.

Lemma empty_value_is_treated_as_absent_witness :
  tools globals_groq_empty_firecrawl = [huggingface_tool]
  ∧ demo4_firecrawl_mcp world_offline globals_groq_empty_firecrawl =
      (Return tt,
       [ Stdout "⏭️  Demo 4: Skipped (Firecrawl not configured)";
         Stdout "   Set FIRECRAWL_API_KEY to enable web scraping demo";
         Stdout "" ]).
Proof.
  apply (proj2 (proj2 (empty_value_is_treated_as_absent world_offline
                         env_groq))
           globals_groq_empty_firecrawl (snd (module_init env_groq_empty_firecrawl))).
  reflexivity.
Defined.

(** The model name has no such test: [os.environ.get] substitutes its
    default for an absent DEFAULT_GROQ_MODEL only, so an empty value is kept
    as the model name.  It is not one of the three decision points above. *)
Remark empty_model_name_is_kept (environ : gmap string string) (g g' : globals)
    (t t' : list event) :
  module_init (<["DEFAULT_GROQ_MODEL" := ""]> environ) = (Return g, t) →
  module_init (delete "DEFAULT_GROQ_MODEL" environ) = (Return g', t') →
  DEFAULT_GROQ_MODEL g = "" ∧ DEFAULT_GROQ_MODEL g' = "llama-3.3-70b-versatile".
Proof.
  intros H H'.
  destruct (module_init_globals _ g t H) as (Hkey & _).
  destruct (module_init_globals _ g' t' H') as (Hkey' & _).
  destruct (module_init_with_key _ Hkey) as [u Hu].
  destruct (module_init_with_key _ Hkey') as [u' Hu'].
  rewrite Hu in H. rewrite Hu' in H'.
  injection H as <- _. injection H' as <- _.
  cbn [DEFAULT_GROQ_MODEL]. rewrite lookup_insert_eq, lookup_delete_eq. split; reflexivity.
Qed.

(** ** Failures of the completion call *)

(** C3: whatever exception the completion call of a routine raises, the
    routine reports it on the error stream and returns normally; hence
    [main] always runs the four routines one after the other and then prints
    its summary. *)
Theorem completion_errors_are_absorbed (w : world) (g : globals) (e : exn) :
  (create_reply w (client g) (demo1_request g) = inr e →
     fst (demo1_simple_completion w g) = Return tt
     ∧ In (Stderr (error_line e)) (snd (demo1_simple_completion w g)))
  ∧ (create_reply w (client g) (demo2_request g) = inr e →
     fst (demo2_mcp_completion w g) = Return tt
     ∧ In (Stderr (error_line e)) (snd (demo2_mcp_completion w g)))
  ∧ (create_reply w (client g) (demo3_request g) = inr e →
     fst (demo3_discover_tools w g) = Return tt
     ∧ In (Stderr (error_line e)) (snd (demo3_discover_tools w g)))
  ∧ (create_reply w (client g) (demo4_request g) = inr e →
     fst (demo4_firecrawl_mcp w g) = Return tt
     ∧ (truthy (FIRECRAWL_API_KEY g) = true →
        In (Stderr (error_line e)) (snd (demo4_firecrawl_mcp w g))))
  ∧ main w g =
      (Return tt,
       snd (demo1_simple_completion w g) ++ snd (demo2_mcp_completion w g)
       ++ snd (demo3_discover_tools w g) ++ snd (demo4_firecrawl_mcp w g) ++ summary).
Proof.
  split; [|split; [|split; [|split]]].
  - intros H. rewrite (demo1_on_error w g e H). split; [reflexivity|].
    simpl. auto.
  - intros H. rewrite (demo2_on_error w g e H). split; [reflexivity|].
    simpl. auto.
  - intros H. rewrite (demo3_on_error w g e H). split; [reflexivity|].
    simpl. auto.
  - intros H. split; [apply demo4_returns|].
    intros Hkey. rewrite (demo4_on_error w g e Hkey H). simpl. auto.
  - apply main_runs_all.
Qed.

Lemma completion_errors_are_absorbed_witness :
  (fst (demo1_simple_completion world_401 globals_groq_firecrawl) = Return tt
   ∧ In (Stderr "❌ Error: Error code: 401")
        (snd (demo1_simple_completion world_401 globals_groq_firecrawl)))
  ∧ (fst (demo2_mcp_completion world_401 globals_groq_firecrawl) = Return tt
     ∧ In (Stderr "❌ Error: Error code: 401")
          (snd (demo2_mcp_completion world_401 globals_groq_firecrawl)))
  ∧ (fst (demo3_discover_tools world_401 globals_groq_firecrawl) = Return tt
     ∧ In (Stderr "❌ Error: Error code: 401")
          (snd (demo3_discover_tools world_401 globals_groq_firecrawl)))
  ∧ (fst (demo4_firecrawl_mcp world_401 globals_groq_firecrawl) = Return tt
     ∧ In (Stderr "❌ Error: Error code: 401")
          (snd (demo4_firecrawl_mcp world_401 globals_groq_firecrawl))).
Proof.
  pose proof (completion_errors_are_absorbed world_401 globals_groq_firecrawl unauthorized)
    as (H1 & H2 & H3 & H4 & _).
  split; [exact (H1 eq_refl)|]. split; [exact (H2 eq_refl)|].
  split; [exact (H3 eq_refl)|].
  destruct (H4 eq_refl) as [H4a H4b]. split; [exact H4a | exact (H4b eq_refl)].
Defined.

(** C4, as stated, at a 401 failure in routine 3: the error stream gets the
    generic line only, no authentication hint. *)
Lemma demo3_prints_no_hint_for_401 :
  create_reply world_401 (client globals_groq) (demo3_request globals_groq) = inr unauthorized
  ∧ status_code unauthorized = Some 401
  ∧ stderr_of (snd (demo3_discover_tools world_401 globals_groq)) = ["❌ Error: Error code: 401"]
  ∧ ¬ In (Stderr "   Check your GROQ_API_KEY") (snd (demo3_discover_tools world_401 globals_groq)).
Proof.
  repeat split. vm_compute. intuition discriminate.
Qed.

(** C4, amended: a caught error is always reported by the generic error
    line; what follows it on the error stream depends on the routine.
    Routine 1 adds the authentication hint for status 401 and nothing
    otherwise; routine 2 adds the authentication hint for 401, the two-line
    tool-provider dependency hint for 424 and nothing otherwise; routine 3
    never adds a hint; routine 4 adds its two-line Firecrawl hint for 424 and
    nothing otherwise, so a 401 gets no hint there either. *)
Theorem error_hints_per_routine (w : world) (g : globals) (e : exn) :
  (create_reply w (client g) (demo1_request g) = inr e →
     stderr_of (snd (demo1_simple_completion w g)) =
       error_line e
       :: (if status_is e 401 then ["   Check your GROQ_API_KEY"] else []))
  ∧ (create_reply w (client g) (demo2_request g) = inr e →
     stderr_of (snd (demo2_mcp_completion w g)) =
       error_line e
       :: (if status_is e 401 then ["   Check your GROQ_API_KEY"]
           else if status_is e 424 then
             ["   MCP server dependency failed"; "   Check that MCP servers are reachable"]
           else []))
  ∧ (create_reply w (client g) (demo3_request g) = inr e →
     stderr_of (snd (demo3_discover_tools w g)) = [error_line e])
  ∧ (truthy (FIRECRAWL_API_KEY g) = true →
     create_reply w (client g) (demo4_request g) = inr e →
     stderr_of (snd (demo4_firecrawl_mcp w g)) =
       error_line e
       :: (if status_is e 424 then
             ["   Firecrawl MCP server failed"; "   Check your FIRECRAWL_API_KEY"]
           else [])).
Proof.
  split; [|split; [|split]].
  - intros H. rewrite (demo1_on_error w g e H).
    destruct (status_is e 401); reflexivity.
  - intros H. rewrite (demo2_on_error w g e H).
    destruct (status_is e 401); [reflexivity|]. destruct (status_is e 424); reflexivity.
  - intros H. rewrite (demo3_on_error w g e H). reflexivity.
  - intros Hkey H. rewrite (demo4_on_error w g e Hkey H).
    destruct (status_is e 424); reflexivity.
Qed.

Lemma error_hints_per_routine_witness :
  stderr_of (snd (demo1_simple_completion world_424 globals_groq_firecrawl))
    = ["❌ Error: Error code: 424"]
  ∧ stderr_of (snd (demo2_mcp_completion world_424 globals_groq_firecrawl))
    = ["❌ Error: Error code: 424"; "   MCP server dependency failed";
       "   Check that MCP servers are reachable"]
  ∧ stderr_of (snd (demo3_discover_tools world_424 globals_groq_firecrawl))
    = ["❌ Error: Error code: 424"]
  ∧ stderr_of (snd (demo4_firecrawl_mcp world_424 globals_groq_firecrawl))
    = ["❌ Error: Error code: 424"; "   Firecrawl MCP server failed";
       "   Check your FIRECRAWL_API_KEY"].
Proof.
  pose proof (error_hints_per_routine world_424 globals_groq_firecrawl failed_dependency)
    as (H1 & H2 & H3 & H4).
  split; [exact (H1 eq_refl)|]. split; [exact (H2 eq_refl)|].
  split; [exact (H3 eq_refl)|]. exact (H4 eq_refl eq_refl).
Defined.

(** ** Routine 1 on a plain completion *)

(** C7: when the client answers routine 1 with a response whose first
    choice carries the text "hello" and no tool calls, the routine prints
    exactly that text as the response line, followed by a token count that is
    the response's [usage.total_tokens] when [usage] is present and 0 when it
    is absent. *)
Theorem demo1_prints_text_and_token_count (w : world) (g : globals) (resp : response)
    (ch : choice) (more : list choice) :
  create_reply w (client g) (demo1_request g) = inl resp →
  choices resp = ch :: more →
  content (choice_message ch) = Some "hello" →
  tool_calls (choice_message ch) = None ∨ tool_calls (choice_message ch) = Some [] →
  (∀ u, usage resp = Some u →
     demo1_simple_completion w g =
       (Return tt,
        [ Stdout "📝 Demo 1: Simple Chat Completion (No MCP)";
          Stdout (str_mul "-" 60);
          Create (client g) (demo1_request g);
          Stdout "Response:";
          Stdout "hello";
          Stdout "";
          Stdout ("✓ Completed in " +:+ str_of_int (total_tokens u) +:+ " tokens");
          Stdout "" ]))
  ∧ (usage resp = None →
     demo1_simple_completion w g =
       (Return tt,
        [ Stdout "📝 Demo 1: Simple Chat Completion (No MCP)";
          Stdout (str_mul "-" 60);
          Create (client g) (demo1_request g);
          Stdout "Response:";
          Stdout "hello";
          Stdout "";
          Stdout "✓ Completed in 0 tokens";
          Stdout "" ])).
Proof.
  intros H Hch Htext _. rewrite (demo1_on_success w g resp ch more H Hch), Htext.
  unfold completed_line. split.
  - intros u ->. reflexivity.
  - intros ->. reflexivity.
Qed.

Lemma demo1_prints_text_and_token_count_witness :
  stdout_of (snd (demo1_simple_completion (world_hello (Some {| total_tokens := 42 |}))
                    globals_groq))
    = [ "📝 Demo 1: Simple Chat Completion (No MCP)"; str_mul "-" 60; "Response:";
        "hello"; ""; "✓ Completed in 42 tokens"; "" ]
  ∧ stdout_of (snd (demo1_simple_completion (world_hello None) globals_groq))
    = [ "📝 Demo 1: Simple Chat Completion (No MCP)"; str_mul "-" 60; "Response:";
        "hello"; ""; "✓ Completed in 0 tokens"; "" ].
Proof.
  split.
  - rewrite (proj1 (demo1_prints_text_and_token_count
                      (world_hello (Some {| total_tokens := 42 |})) globals_groq
                      (hello_response (Some {| total_tokens := 42 |}))
                      {| choice_message := {| content := Some "hello"; tool_calls := Some [] |} |}
                      [] eq_refl eq_refl eq_refl (or_intror eq_refl))
             {| total_tokens := 42 |} eq_refl).
    reflexivity.
  - rewrite (proj2 (demo1_prints_text_and_token_count
                      (world_hello None) globals_groq (hello_response None)
                      {| choice_message := {| content := Some "hello"; tool_calls := Some [] |} |}
                      [] eq_refl eq_refl eq_refl (or_intror eq_refl))
             eq_refl).
    reflexivity.
Defined.

(** ** Routine 4 *)

(** C5, as stated, at a response whose text content is present but empty:
    with the key configured, routine 4 prints the JSON dump of the message,
    not the (empty) text. *)
Lemma demo4_dumps_message_with_empty_text :
  FIRECRAWL_API_KEY globals_groq_firecrawl = Some "fc-test"
  ∧ create_reply world_empty_text (client globals_groq_firecrawl)
      (demo4_request globals_groq_firecrawl) = inl (text_response (Some "") None)
  ∧ stdout_of (snd (demo4_firecrawl_mcp world_empty_text globals_groq_firecrawl))
    = [ "🌐 Demo 4: Firecrawl MCP Web Scraping"; str_mul "-" 60; "Response:";
        message_json world_empty_text {| content := Some ""; tool_calls := Some [] |};
        ""; "✓ Completed in 0 tokens"; "" ]
  ∧ message_json world_empty_text {| content := Some ""; tool_calls := Some [] |} ≠ "".
Proof.
  repeat split. discriminate.
Qed.

(** C5, amended: when FIRECRAWL_API_KEY is absent or empty, routine 4 prints
    its skip notice and returns without issuing a request; when it is a
    non-empty string, routine 4 issues exactly one request, and when that
    request returns a response with at least one choice, the routine prints
    the text content of the first choice if it is a non-empty string and the
    JSON dump of the message if the content is absent or empty.  When the
    response has no choice, neither is printed: the routine reports the
    IndexError on the error stream. *)
Theorem demo4_skips_or_runs (w : world) (g : globals) :
  (FIRECRAWL_API_KEY g = None ∨ FIRECRAWL_API_KEY g = Some "" →
     demo4_firecrawl_mcp w g =
       (Return tt,
        [ Stdout "⏭️  Demo 4: Skipped (Firecrawl not configured)";
          Stdout "   Set FIRECRAWL_API_KEY to enable web scraping demo";
          Stdout "" ])
     ∧ requests_of (snd (demo4_firecrawl_mcp w g)) = [])
  ∧ (∀ k, FIRECRAWL_API_KEY g = Some k → k ≠ "" →
       requests_of (snd (demo4_firecrawl_mcp w g)) = [demo4_request g]
       ∧ (∀ resp ch more,
           create_reply w (client g) (demo4_request g) = inl resp →
           choices resp = ch :: more →
           (∀ text, content (choice_message ch) = Some text → text ≠ "" →
              demo4_firecrawl_mcp w g =
                (Return tt,
                 [ Stdout "🌐 Demo 4: Firecrawl MCP Web Scraping";
                   Stdout (str_mul "-" 60);
                   Create (client g) (demo4_request g);
                   Stdout "Response:";
                   Stdout text;
                   Stdout "";
                   Stdout (completed_line resp);
                   Stdout "" ]))
           ∧ (content (choice_message ch) = None ∨ content (choice_message ch) = Some "" →
              demo4_firecrawl_mcp w g =
                (Return tt,
                 [ Stdout "🌐 Demo 4: Firecrawl MCP Web Scraping";
                   Stdout (str_mul "-" 60);
                   Create (client g) (demo4_request g);
                   Stdout "Response:";
                   Stdout (message_json w (choice_message ch));
                   Stdout "";
                   Stdout (completed_line resp);
                   Stdout "" ])))
       ∧ (∀ resp,
           create_reply w (client g) (demo4_request g) = inl resp →
           choices resp = [] →
           demo4_firecrawl_mcp w g =
             (Return tt,
              [ Stdout "🌐 Demo 4: Firecrawl MCP Web Scraping";
                Stdout (str_mul "-" 60);
                Create (client g) (demo4_request g);
                Stderr "❌ Error: list index out of range";
                Stdout "" ]))).
Proof.
  split.
  - intros H. apply truthy_false_iff in H. rewrite (demo4_skipped w g H).
    split; reflexivity.
  - intros k Hk Hne.
    assert (Hkey : truthy (FIRECRAWL_API_KEY g) = true)
      by (apply truthy_true_iff; eauto).
    split; [|split].
    + destruct (demo4_shape w g Hkey) as (rest & -> & _ & Hq). simpl. rewrite Hq.
      reflexivity.
    + intros resp ch more H Hch.
      rewrite (demo4_on_success w g resp ch more Hkey H Hch). split.
      * intros text Ht Htne.
        assert (Htruthy : truthy (content (choice_message ch)) = true)
          by (apply truthy_true_iff; eauto).
        rewrite Htruthy, Ht. reflexivity.
      * intros Hc. apply truthy_false_iff in Hc. rewrite Hc. reflexivity.
    + intros resp H Hch. apply (demo4_on_empty_choices w g resp Hkey H Hch).
Qed.

Lemma demo4_skips_or_runs_witness :
  (demo4_firecrawl_mcp world_offline globals_groq =
     (Return tt,
      [ Stdout "⏭️  Demo 4: Skipped (Firecrawl not configured)";
        Stdout "   Set FIRECRAWL_API_KEY to enable web scraping demo";
        Stdout "" ])
   ∧ requests_of (snd (demo4_firecrawl_mcp world_offline globals_groq)) = [])
  ∧ requests_of (snd (demo4_firecrawl_mcp world_offline globals_groq_firecrawl))
    = [demo4_request globals_groq_firecrawl]
  ∧ stdout_of (snd (demo4_firecrawl_mcp (world_text "top story") globals_groq_firecrawl))
    = [ "🌐 Demo 4: Firecrawl MCP Web Scraping"; str_mul "-" 60; "Response:";
        "top story"; ""; "✓ Completed in 0 tokens"; "" ]
  ∧ stdout_of (snd (demo4_firecrawl_mcp world_no_text globals_groq_firecrawl))
    = [ "🌐 Demo 4: Firecrawl MCP Web Scraping"; str_mul "-" 60; "Response:";
        "{content: None}"; ""; "✓ Completed in 0 tokens"; "" ]
  ∧ stdout_of (snd (demo4_firecrawl_mcp world_no_choices globals_groq_firecrawl))
    = [ "🌐 Demo 4: Firecrawl MCP Web Scraping"; str_mul "-" 60; "" ].
Proof.
  split; [|split; [|split; [|split]]].
  - apply (proj1 (demo4_skips_or_runs world_offline globals_groq)). left. reflexivity.
  - apply (proj2 (demo4_skips_or_runs world_offline globals_groq_firecrawl) "fc-test");
      [reflexivity | discriminate].
  - destruct (proj2 (demo4_skips_or_runs (world_text "top story") globals_groq_firecrawl)
                "fc-test" eq_refl ltac:(discriminate)) as (_ & H & _).
    destruct (H (text_response (Some "top story") None)
                {| choice_message := {| content := Some "top story"; tool_calls := Some [] |} |}
                [] eq_refl eq_refl) as [Htext _].
    rewrite (Htext "top story" eq_refl ltac:(discriminate)). reflexivity.
  - destruct (proj2 (demo4_skips_or_runs world_no_text globals_groq_firecrawl)
                "fc-test" eq_refl ltac:(discriminate)) as (_ & H & _).
    destruct (H (text_response None None)
                {| choice_message := {| content := None; tool_calls := Some [] |} |}
                [] eq_refl eq_refl) as [_ Hdump].
    rewrite (Hdump (or_introl eq_refl)). reflexivity.
  - destruct (proj2 (demo4_skips_or_runs world_no_choices globals_groq_firecrawl)
                "fc-test" eq_refl ltac:(discriminate)) as (_ & _ & H).
    rewrite (H no_choices eq_refl eq_refl). reflexivity.
Defined.

(** ** The tool-call display of routine 2 *)




(** ** The entry point *)



(** ** Trailing blank line *)

(** C9: each of the four routines returns normally and the last thing it
    does is print a blank line, whether its request returned a response or
    raised, and, for routine 4, also when the routine is skipped. *)
Theorem routines_end_with_blank_line (w : world) (g : globals) :
  (∃ before, demo1_simple_completion w g = (Return tt, before ++ [Stdout ""]))
  ∧ (∃ before, demo2_mcp_completion w g = (Return tt, before ++ [Stdout ""]))
  ∧ (∃ before, demo3_discover_tools w g = (Return tt, before ++ [Stdout ""]))
  ∧ (∃ before, demo4_firecrawl_mcp w g = (Return tt, before ++ [Stdout ""])).
Proof.
  split; [|split; [|split]].
  - destruct (demo1_shape w g) as (rest & -> & [before ->] & _).
    eexists (_ :: _ :: _ :: before). reflexivity.
  - destruct (demo2_shape w g) as (rest & -> & [before ->] & _).
    eexists (_ :: _ :: _ :: before). reflexivity.
  - destruct (demo3_shape w g) as (rest & -> & [before ->] & _).
    eexists (_ :: _ :: _ :: before). reflexivity.
  - destruct (truthy (FIRECRAWL_API_KEY g)) eqn:Hkey.
    + destruct (demo4_shape w g Hkey) as (rest & -> & [before ->] & _).
      eexists (_ :: _ :: _ :: before). reflexivity.
    + rewrite (demo4_skipped w g Hkey). eexists [_; _]. reflexivity.
Qed.

(** * Further properties of the script *)

(** ** Traces of plain output *)

Lemma output_of_stdout (t : list event) : Forall is_stdout t → Forall is_output t.
Proof.
  intros H. apply (Forall_impl _ _ _ H).
  intros [s|s|c|c r] Hev; simpl in *; auto.
Qed.

Lemma requests_of_output (t : list event) : Forall is_output t → requests_of t = [].
Proof.
  induction 1 as [|ev t Hev _ IH]; [reflexivity|].
  destruct ev; simpl in Hev; try contradiction; exact IH.
Qed.

Lemma clients_of_output (t : list event) : Forall is_output t → clients_of t = [].
Proof.
  induction 1 as [|ev t Hev _ IH]; [reflexivity|].
  destruct ev; simpl in Hev; try contradiction; exact IH.
Qed.

Lemma callers_of_output (t : list event) : Forall is_output t → callers_of t = [].
Proof.
  induction 1 as [|ev t Hev _ IH]; [reflexivity|].
  destruct ev; simpl in Hev; try contradiction; exact IH.
Qed.

Lemma stderr_of_prints (t : list event) : Forall is_stdout t → stderr_of t = [].
Proof.
  induction 1 as [|ev t Hev _ IH]; [reflexivity|].
  destruct ev; simpl in Hev; try contradiction; exact IH.
Qed.

Lemma stderr_of_append (t1 t2 : list event) :
  stderr_of (t1 ++ t2) = stderr_of t1 ++ stderr_of t2.
Proof. apply omap_app. Qed.

Ltac output_tail :=
  repeat first
    [ apply List.Forall_nil
    | apply List.Forall_cons; [exact I|]
    | apply Forall_app; split
    | apply output_of_stdout; assumption ].

Ltac output_done :=
  eexists; split; [reflexivity | output_tail].

(** After its request, a routine only prints. *)
Lemma demo1_output (w : world) (g : globals) :
  ∃ rest, demo1_simple_completion w g =
            (Return tt, Stdout "📝 Demo 1: Simple Chat Completion (No MCP)"
                        :: Stdout (str_mul "-" 60)
                        :: Create (client g) (demo1_request g) :: rest)
          ∧ Forall is_output rest.
Proof.
  unfold demo1_simple_completion, chat_completions_create.
  destruct (create_reply w (client g) (demo1_request g)) as [resp|e]; io_run.
  - unfold first_choice. destruct (choices resp) as [|ch more]; io_run; output_done.
  - destruct (status_is e 401); io_run; output_done.
Qed.

Lemma demo2_output (w : world) (g : globals) :
  ∃ rest, demo2_mcp_completion w g =
            (Return tt, Stdout "🔧 Demo 2: Chat Completion with MCP Tools"
                        :: Stdout (str_mul "-" 60)
                        :: Create (client g) (demo2_request g) :: rest)
          ∧ Forall is_output rest.
Proof.
  unfold demo2_mcp_completion, chat_completions_create.
  destruct (create_reply w (client g) (demo2_request g)) as [resp|e]; io_run.
  - unfold first_choice. destruct (choices resp) as [|ch more]; io_run; [output_done|].
    destruct (truthy (content (choice_message ch)));
      destruct (tool_calls (choice_message ch)) as [calls|]; io_run;
      try output_done;
      (destruct (0 <? length calls)%nat; io_run; [|output_done];
       destruct (tool_call_loop_outcome w calls 1) as (o & t & -> & Ht & Ho);
       destruct o as [[]|e|code]; [| |contradiction]; io_run;
       [ output_done
       | destruct (status_code e) as [c|]; io_run; [|output_done];
         destruct (c =? 401); [|destruct (c =? 424)]; io_run; output_done ]).
  - destruct (status_code e) as [code|]; io_run; [|output_done].
    destruct (code =? 401); [| destruct (code =? 424)]; io_run; output_done.
Qed.

Lemma demo3_output (w : world) (g : globals) :
  ∃ rest, demo3_discover_tools w g =
            (Return tt, Stdout "🔍 Demo 3: Tool Discovery"
                        :: Stdout (str_mul "-" 60)
                        :: Create (client g) (demo3_request g) :: rest)
          ∧ Forall is_output rest.
Proof.
  unfold demo3_discover_tools, chat_completions_create.
  destruct (create_reply w (client g) (demo3_request g)) as [resp|e]; io_run.
  - unfold first_choice. destruct (choices resp) as [|ch more]; io_run; output_done.
  - output_done.
Qed.

Lemma demo4_output (w : world) (g : globals) :
  truthy (FIRECRAWL_API_KEY g) = true →
  ∃ rest, demo4_firecrawl_mcp w g =
            (Return tt, Stdout "🌐 Demo 4: Firecrawl MCP Web Scraping"
                        :: Stdout (str_mul "-" 60)
                        :: Create (client g) (demo4_request g) :: rest)
          ∧ Forall is_output rest.
Proof.
  intros Hkey.
  unfold demo4_firecrawl_mcp, chat_completions_create. rewrite Hkey. cbn [negb].
  destruct (create_reply w (client g) (demo4_request g)) as [resp|e]; io_run.
  - unfold first_choice. destruct (choices resp) as [|ch more]; io_run; [output_done|].
    destruct (truthy (content (choice_message ch))); io_run; output_done.
  - destruct (status_is e 424); io_run; output_done.
Qed.

(** ** Startup and the run as a whole *)

Lemma module_init_trace (environ : gmap string string) :
  truthy (environ !! "GROQ_API_KEY") = true →
  module_init environ =
    (Return {| GROQ_API_KEY := environ !! "GROQ_API_KEY";
               DEFAULT_GROQ_MODEL :=
                 default "llama-3.3-70b-versatile" (environ !! "DEFAULT_GROQ_MODEL");
               FIRECRAWL_API_KEY := environ !! "FIRECRAWL_API_KEY";
               client := {| api_key := environ !! "GROQ_API_KEY";
                            base_url := "https://api.groq.com/openai/v1" |};
               tools :=
                 if truthy (environ !! "FIRECRAWL_API_KEY")
                 then [huggingface_tool; firecrawl_tool (environ !! "FIRECRAWL_API_KEY")]
                 else [huggingface_tool] |},
     [ NewClient {| api_key := environ !! "GROQ_API_KEY";
                    base_url := "https://api.groq.com/openai/v1" |};
       Stdout "🚀 Groq MCP Demo - Python";
       Stdout (str_mul "=" 60);
       Stdout ("Model: "
               +:+ default "llama-3.3-70b-versatile" (environ !! "DEFAULT_GROQ_MODEL"));
       Stdout "Groq API: Configured ✓";
       Stdout "Huggingface MCP: Enabled ✓";
       Stdout (if truthy (environ !! "FIRECRAWL_API_KEY")
               then "Firecrawl MCP: Enabled ✓"
               else "Firecrawl MCP: Disabled (no API key)");
       Stdout (str_mul "=" 60);
       Stdout "" ]).
Proof.
  intros H. unfold module_init. rewrite H.
  destruct (truthy (environ !! "FIRECRAWL_API_KEY")); reflexivity.
Qed.

Lemma module_init_returns (environ : gmap string string) (g : globals) (t : list event) :
  module_init environ = (Return g, t) →
  truthy (environ !! "GROQ_API_KEY") = true.
Proof.
  intros H. destruct (truthy (environ !! "GROQ_API_KEY")) eqn:Hkey; [reflexivity|].
  rewrite (module_init_missing_key environ Hkey) in H. discriminate.
Qed.

Lemma script_after_init (w : world) (environ : gmap string string) (g : globals)
    (t : list event) :
  module_init environ = (Return g, t) →
  script w environ =
    (Return tt,
     t ++ snd (demo1_simple_completion w g) ++ snd (demo2_mcp_completion w g)
     ++ snd (demo3_discover_tools w g) ++ snd (demo4_firecrawl_mcp w g) ++ summary).
Proof.
  intros H. unfold script. rewrite H. cbn [mbind io_mbind io_bind].
  rewrite main_runs_all. reflexivity.
Qed.

Lemma routine_trace_projections (h d : string) (c : OpenAI) (r : request)
    (rest : list event) :
  Forall is_output rest →
  requests_of (Stdout h :: Stdout d :: Create c r :: rest) = [r]
  ∧ clients_of (Stdout h :: Stdout d :: Create c r :: rest) = []
  ∧ callers_of (Stdout h :: Stdout d :: Create c r :: rest) = [c].
Proof.
  intros H. split; [|split].
  - change (r :: requests_of rest = [r]). rewrite (requests_of_output rest H).
    reflexivity.
  - change (clients_of rest = []). apply (clients_of_output rest H).
  - change (c :: callers_of rest = [c]). rewrite (callers_of_output rest H).
    reflexivity.
Qed.

Lemma demo4_trace_projections (w : world) (g : globals) :
  requests_of (snd (demo4_firecrawl_mcp w g))
    = (if truthy (FIRECRAWL_API_KEY g) then [demo4_request g] else [])
  ∧ clients_of (snd (demo4_firecrawl_mcp w g)) = []
  ∧ callers_of (snd (demo4_firecrawl_mcp w g))
    = (if truthy (FIRECRAWL_API_KEY g) then [client g] else []).
Proof.
  destruct (truthy (FIRECRAWL_API_KEY g)) eqn:Hkey.
  - destruct (demo4_output w g Hkey) as (rest & -> & Hout).
    apply routine_trace_projections, Hout.
  - rewrite (demo4_skipped w g Hkey). auto.
Qed.

(** X1: a run that gets past startup issues the requests of routines 1, 2
    and 3, in this order, followed by the request of routine 4 exactly when
    FIRECRAWL_API_KEY is a non-empty string, and no other request; the list
    does not depend on what the provider answers (a failed request is never
    repeated). *)
Theorem run_issues_one_request_per_routine (w : world) (environ : gmap string string)
    (g : globals) (t : list event) :
  module_init environ = (Return g, t) →
  requests_of (snd (script w environ)) =
    [demo1_request g; demo2_request g; demo3_request g]
    ++ (if truthy (environ !! "FIRECRAWL_API_KEY") then [demo4_request g] else [])
  ∧ ∀ w', requests_of (snd (script w' environ)) = requests_of (snd (script w environ)).
Proof.
  intros Hinit.
  assert (Hall : ∀ v, requests_of (snd (script v environ)) =
    [demo1_request g; demo2_request g; demo3_request g]
    ++ (if truthy (environ !! "FIRECRAWL_API_KEY") then [demo4_request g] else [])).
  { intros v. rewrite (script_after_init v environ g t Hinit). cbn [snd].
    destruct (module_init_globals environ g t Hinit) as (Hkey & Hfc & _).
    pose proof Hinit as Ht. rewrite (module_init_trace environ Hkey) in Ht.
    injection Ht as _ <-.
    destruct (demo1_output v g) as (r1 & -> & H1).
    destruct (demo2_output v g) as (r2 & -> & H2).
    destruct (demo3_output v g) as (r3 & -> & H3).
    destruct (demo4_trace_projections v g) as (H4 & _).
    rewrite Hfc in H4. cbn [snd].
    rewrite !requests_of_app, H4.
    rewrite (proj1 (routine_trace_projections _ _ _ _ r1 H1)).
    rewrite (proj1 (routine_trace_projections _ _ _ _ r2 H2)).
    rewrite (proj1 (routine_trace_projections _ _ _ _ r3 H3)).
    cbn. rewrite app_nil_r. reflexivity. }
  split; [apply Hall|]. intros w'. rewrite !Hall. reflexivity.
Qed.

Lemma run_issues_one_request_per_routine_witness :
  requests_of (snd (script world_401 env_groq_firecrawl)) =
    [demo1_request globals_groq_firecrawl; demo2_request globals_groq_firecrawl;
     demo3_request globals_groq_firecrawl; demo4_request globals_groq_firecrawl]
  ∧ requests_of (snd (script world_401 env_groq)) =
    [demo1_request globals_groq; demo2_request globals_groq; demo3_request globals_groq].
Proof.
  split.
  - apply (proj1 (run_issues_one_request_per_routine world_401 env_groq_firecrawl
                    globals_groq_firecrawl (snd (module_init env_groq_firecrawl)) eq_refl)).
  - apply (proj1 (run_issues_one_request_per_routine world_401 env_groq
                    globals_groq (snd (module_init env_groq)) eq_refl)).
Defined.

(** X2: a run that gets past startup constructs exactly one client, as its
    very first action, from the value of GROQ_API_KEY and the fixed Groq base
    URL, and every request of the run goes through that client. *)
Theorem one_client_serves_every_request (w : world) (environ : gmap string string)
    (g : globals) (t : list event) :
  module_init environ = (Return g, t) →
  client g = {| api_key := environ !! "GROQ_API_KEY";
                base_url := "https://api.groq.com/openai/v1" |}
  ∧ (∃ rest, snd (script w environ) = NewClient (client g) :: rest)
  ∧ clients_of (snd (script w environ)) = [client g]
  ∧ Forall (λ c, c = client g) (callers_of (snd (script w environ))).
Proof.
  intros Hinit.
  rewrite (script_after_init w environ g t Hinit). cbn [snd].
  pose proof (module_init_returns environ g t Hinit) as Hkey.
  pose proof Hinit as Ht. rewrite (module_init_trace environ Hkey) in Ht.
  injection Ht as <- <-. cbn [client].
  split; [reflexivity|]. split; [eexists; reflexivity|].
  set (g := {| GROQ_API_KEY := environ !! "GROQ_API_KEY" |}).
  destruct (demo1_output w g) as (r1 & -> & H1).
  destruct (demo2_output w g) as (r2 & -> & H2).
  destruct (demo3_output w g) as (r3 & -> & H3).
  destruct (demo4_trace_projections w g) as (_ & H4c & H4).
  destruct (routine_trace_projections
              "📝 Demo 1: Simple Chat Completion (No MCP)" (str_mul "-" 60)
              (client g) (demo1_request g) r1 H1) as (_ & C1 & K1).
  destruct (routine_trace_projections
              "🔧 Demo 2: Chat Completion with MCP Tools" (str_mul "-" 60)
              (client g) (demo2_request g) r2 H2) as (_ & C2 & K2).
  destruct (routine_trace_projections
              "🔍 Demo 3: Tool Discovery" (str_mul "-" 60)
              (client g) (demo3_request g) r3 H3) as (_ & C3 & K3).
  cbn [snd]. split.
  - unfold clients_of in *. rewrite !omap_app, C1, C2, C3, H4c. reflexivity.
  - unfold callers_of in *. rewrite !omap_app, K1, K2, K3, H4.
    destruct (truthy (FIRECRAWL_API_KEY g)); repeat constructor.
Qed.

Lemma one_client_serves_every_request_witness :
  clients_of (snd (script world_offline env_groq_firecrawl))
    = [ {| api_key := Some "gsk_test"; base_url := "https://api.groq.com/openai/v1" |} ]
  ∧ Forall (λ c, c = client globals_groq_firecrawl)
      (callers_of (snd (script world_offline env_groq_firecrawl))).
Proof.
  destruct (one_client_serves_every_request world_offline env_groq_firecrawl
              globals_groq_firecrawl (snd (module_init env_groq_firecrawl)) eq_refl)
    as (_ & _ & Hc & Hk).
  split; [exact Hc | exact Hk].
Defined.

(** X3: the model name is the value of DEFAULT_GROQ_MODEL when the
    variable is present, even when that value is the empty string, and
    "llama-3.3-70b-versatile" only when the variable is absent; the startup
    banner shows this name and every request of the run carries it. *)
Theorem model_name_on_every_request (w : world) (environ : gmap string string)
    (g : globals) (t : list event) :
  module_init environ = (Return g, t) →
  (environ !! "DEFAULT_GROQ_MODEL" = None →
     In (Stdout "Model: llama-3.3-70b-versatile") t
     ∧ Forall (λ r, model r = "llama-3.3-70b-versatile")
         (requests_of (snd (script w environ))))
  ∧ (∀ v, environ !! "DEFAULT_GROQ_MODEL" = Some v →
     In (Stdout ("Model: " +:+ v)) t
     ∧ Forall (λ r, model r = v) (requests_of (snd (script w environ)))).
Proof.
  intros Hinit.
  assert (Hgen : In (Stdout ("Model: " +:+ DEFAULT_GROQ_MODEL g)) t
                 ∧ Forall (λ r, model r = DEFAULT_GROQ_MODEL g)
                     (requests_of (snd (script w environ)))
                 ∧ DEFAULT_GROQ_MODEL g
                   = default "llama-3.3-70b-versatile" (environ !! "DEFAULT_GROQ_MODEL")).
  { rewrite (script_after_init w environ g t Hinit). cbn [snd].
    pose proof (module_init_returns environ g t Hinit) as Hkey.
    pose proof Hinit as Ht. rewrite (module_init_trace environ Hkey) in Ht.
    injection Ht as Hg <-. split; [|split].
    - rewrite <- Hg. cbn. auto.
    - destruct (demo1_output w g) as (r1 & -> & H1).
      destruct (demo2_output w g) as (r2 & -> & H2).
      destruct (demo3_output w g) as (r3 & -> & H3).
      destruct (demo4_trace_projections w g) as (H4 & _). cbn [snd].
      rewrite !requests_of_app, H4.
      rewrite (proj1 (routine_trace_projections _ _ _ _ r1 H1)).
      rewrite (proj1 (routine_trace_projections _ _ _ _ r2 H2)).
      rewrite (proj1 (routine_trace_projections _ _ _ _ r3 H3)).
      destruct (truthy (FIRECRAWL_API_KEY g)); repeat constructor.
    - rewrite <- Hg. reflexivity. }
  destruct Hgen as (Hin & Hall & Hm). split.
  - intros Hd. rewrite Hd in Hm. cbn in Hm. rewrite Hm in Hin, Hall. auto.
  - intros v Hd. rewrite Hd in Hm. cbn in Hm. rewrite Hm in Hin, Hall. auto.
Qed.

Lemma model_name_on_every_request_witness :
  (In (Stdout "Model: llama-3.3-70b-versatile") (snd (module_init env_groq))
   ∧ Forall (λ r, model r = "llama-3.3-70b-versatile")
       (requests_of (snd (script world_offline env_groq))))
  ∧ (In (Stdout ("Model: " +:+ "")) (snd (module_init env_groq_empty_model))
     ∧ Forall (λ r, model r = "")
         (requests_of (snd (script world_offline env_groq_empty_model)))).
Proof.
  split.
  - apply (proj1 (model_name_on_every_request world_offline env_groq globals_groq
                    (snd (module_init env_groq)) eq_refl)).
    reflexivity.
  - assert (Hinit : module_init env_groq_empty_model
                    = (Return globals_groq_empty_model,
                       snd (module_init env_groq_empty_model)))
      by (vm_compute; reflexivity).
    apply (proj2 (model_name_on_every_request world_offline env_groq_empty_model
                    globals_groq_empty_model (snd (module_init env_groq_empty_model))
                    Hinit) "").
    reflexivity.
Defined.

(** X4: the startup banner, the tool list and routine 4 agree on whether
    Firecrawl is enabled.  After the client is constructed the module level
    prints eight lines; the seventh reads "Enabled" exactly when the tool
    list has two entries, which is exactly when routine 4 issues its request;
    otherwise it reads "Disabled", the list has one entry and routine 4 issues
    none. *)
Theorem banner_agrees_with_tools_and_routine4 (w : world)
    (environ : gmap string string) (g : globals) (t : list event) :
  module_init environ = (Return g, t) →
  t = NewClient (client g)
      :: map Stdout
           [ "🚀 Groq MCP Demo - Python";
             str_mul "=" 60;
             "Model: " +:+ DEFAULT_GROQ_MODEL g;
             "Groq API: Configured ✓";
             "Huggingface MCP: Enabled ✓";
             (if truthy (environ !! "FIRECRAWL_API_KEY")
              then "Firecrawl MCP: Enabled ✓"
              else "Firecrawl MCP: Disabled (no API key)");
             str_mul "=" 60;
             "" ]
  ∧ length (tools g) = (if truthy (environ !! "FIRECRAWL_API_KEY") then 2 else 1)%nat
  ∧ length (requests_of (snd (demo4_firecrawl_mcp w g)))
    = (if truthy (environ !! "FIRECRAWL_API_KEY") then 1 else 0)%nat.
Proof.
  intros Hinit.
  pose proof (module_init_returns environ g t Hinit) as Hkey.
  destruct (demo4_trace_projections w g) as (H4 & _).
  rewrite (module_init_trace environ Hkey) in Hinit.
  injection Hinit as <- <-. cbn [FIRECRAWL_API_KEY] in H4. rewrite H4.
  split; [reflexivity|].
  destruct (truthy (environ !! "FIRECRAWL_API_KEY")); split; reflexivity.
Qed.

Lemma banner_agrees_with_tools_and_routine4_witness :
  stdout_of (snd (module_init env_groq_firecrawl))
    = [ "🚀 Groq MCP Demo - Python"; str_mul "=" 60; "Model: llama-3.3-70b-versatile";
        "Groq API: Configured ✓"; "Huggingface MCP: Enabled ✓";
        "Firecrawl MCP: Enabled ✓"; str_mul "=" 60; "" ]
  ∧ length (tools globals_groq_firecrawl) = 2%nat
  ∧ length (requests_of (snd (demo4_firecrawl_mcp world_offline globals_groq_firecrawl)))
    = 1%nat.
Proof.
  destruct (banner_agrees_with_tools_and_routine4 world_offline env_groq_firecrawl
              globals_groq_firecrawl (snd (module_init env_groq_firecrawl)) eq_refl)
    as (Ht & Hl & Hr).
  split; [rewrite Ht; reflexivity|]. split; [exact Hl | exact Hr].
Defined.

(** ** Responses without choices, and responses without text *)

(** X5: a response with an empty [choices] list makes [choices[0]] raise
    IndexError inside the routine's [try]; every routine reports it as
    "list index out of range" without any hint and returns normally after a
    blank line.  Routines 1 and 3 have printed "Response:" by then; routines
    2 and 4 have printed nothing since their rule line. *)
Theorem empty_choices_are_reported (w : world) (g : globals) (resp : response) :
  choices resp = [] →
  (create_reply w (client g) (demo1_request g) = inl resp →
     demo1_simple_completion w g =
       (Return tt,
        [ Stdout "📝 Demo 1: Simple Chat Completion (No MCP)";
          Stdout (str_mul "-" 60);
          Create (client g) (demo1_request g);
          Stdout "Response:";
          Stderr "❌ Error: list index out of range";
          Stdout "" ]))
  ∧ (create_reply w (client g) (demo2_request g) = inl resp →
     demo2_mcp_completion w g =
       (Return tt,
        [ Stdout "🔧 Demo 2: Chat Completion with MCP Tools";
          Stdout (str_mul "-" 60);
          Create (client g) (demo2_request g);
          Stderr "❌ Error: list index out of range";
          Stdout "" ]))
  ∧ (create_reply w (client g) (demo3_request g) = inl resp →
     demo3_discover_tools w g =
       (Return tt,
        [ Stdout "🔍 Demo 3: Tool Discovery";
          Stdout (str_mul "-" 60);
          Create (client g) (demo3_request g);
          Stdout "Response:";
          Stderr "❌ Error: list index out of range";
          Stdout "" ]))
  ∧ (truthy (FIRECRAWL_API_KEY g) = true →
     create_reply w (client g) (demo4_request g) = inl resp →
     demo4_firecrawl_mcp w g =
       (Return tt,
        [ Stdout "🌐 Demo 4: Firecrawl MCP Web Scraping";
          Stdout (str_mul "-" 60);
          Create (client g) (demo4_request g);
          Stderr "❌ Error: list index out of range";
          Stdout "" ])).
Proof.
  intros Hch. split; [|split; [|split]].
  - intros H. apply (demo1_on_empty_choices w g resp H Hch).
  - intros H. apply (demo2_on_empty_choices w g resp H Hch).
  - intros H. apply (demo3_on_empty_choices w g resp H Hch).
  - intros Hkey H. apply (demo4_on_empty_choices w g resp Hkey H Hch).
Qed.

Lemma empty_choices_are_reported_witness :
  stderr_of (snd (demo1_simple_completion world_no_choices globals_groq_firecrawl))
    = ["❌ Error: list index out of range"]
  ∧ stdout_of (snd (demo2_mcp_completion world_no_choices globals_groq_firecrawl))
    = ["🔧 Demo 2: Chat Completion with MCP Tools"; str_mul "-" 60; ""]
  ∧ stdout_of (snd (demo3_discover_tools world_no_choices globals_groq_firecrawl))
    = ["🔍 Demo 3: Tool Discovery"; str_mul "-" 60; "Response:"; ""]
  ∧ fst (demo4_firecrawl_mcp world_no_choices globals_groq_firecrawl) = Return tt.
Proof.
  destruct (empty_choices_are_reported world_no_choices globals_groq_firecrawl
              no_choices eq_refl) as (H1 & H2 & H3 & H4).
  rewrite (H1 eq_refl), (H2 eq_refl), (H3 eq_refl), (H4 eq_refl eq_refl).
  repeat split.
Defined.

(** X6: routines 1 and 3 print the text content of the first choice
    unconditionally: the text itself when there is one, even an empty one,
    and the word "None" when the content is absent.  The routine then prints
    a blank line and the token count, and nothing goes to the error stream. *)
Theorem plain_routines_print_content_as_is (w : world) (g : globals) (resp : response)
    (ch : choice) (more : list choice) :
  choices resp = ch :: more →
  (create_reply w (client g) (demo1_request g) = inl resp →
     demo1_simple_completion w g =
       (Return tt,
        [ Stdout "📝 Demo 1: Simple Chat Completion (No MCP)";
          Stdout (str_mul "-" 60);
          Create (client g) (demo1_request g);
          Stdout "Response:";
          Stdout (match content (choice_message ch) with
                  | Some text => text
                  | None => "None"
                  end);
          Stdout "";
          Stdout (completed_line resp);
          Stdout "" ]))
  ∧ (create_reply w (client g) (demo3_request g) = inl resp →
     demo3_discover_tools w g =
       (Return tt,
        [ Stdout "🔍 Demo 3: Tool Discovery";
          Stdout (str_mul "-" 60);
          Create (client g) (demo3_request g);
          Stdout "Response:";
          Stdout (match content (choice_message ch) with
                  | Some text => text
                  | None => "None"
                  end);
          Stdout "";
          Stdout (completed_line resp);
          Stdout "" ])).
Proof.
  intros Hch. split.
  - intros H. apply (demo1_on_success w g resp ch more H Hch).
  - intros H. apply (demo3_on_success w g resp ch more H Hch).
Qed.

Lemma plain_routines_print_content_as_is_witness :
  stdout_of (snd (demo1_simple_completion world_no_text globals_groq))
    = [ "📝 Demo 1: Simple Chat Completion (No MCP)"; str_mul "-" 60; "Response:";
        "None"; ""; "✓ Completed in 0 tokens"; "" ]
  ∧ stdout_of (snd (demo3_discover_tools world_empty_text globals_groq))
    = [ "🔍 Demo 3: Tool Discovery"; str_mul "-" 60; "Response:";
        ""; ""; "✓ Completed in 0 tokens"; "" ].
Proof.
  split.
  - rewrite (proj1 (plain_routines_print_content_as_is world_no_text globals_groq
                      (text_response None None)
                      {| choice_message := {| content := None; tool_calls := Some [] |} |}
                      [] eq_refl) eq_refl).
    reflexivity.
  - rewrite (proj2 (plain_routines_print_content_as_is world_empty_text globals_groq
                      (text_response (Some "") None)
                      {| choice_message := {| content := Some ""; tool_calls := Some [] |} |}
                      [] eq_refl) eq_refl).
    reflexivity.
Defined.

(** ** The tool-call listing of routine 2 *)

Lemma for_enumerate_all_return {A : Type} (body : nat → A → io unit) (items : list A) :
  ∀ start : nat,
    (∀ i x, In x items → fst (body i x) = Return tt) →
    for_enumerate body start items
    = (Return tt, concat (imap (λ i x, snd (body (start + i)%nat x)) items)).
Proof.
  induction items as [|x items IH]; intros start Hbody; [reflexivity|].
  cbn [for_enumerate]. pose proof (Hbody start x (or_introl eq_refl)) as Hx.
  destruct (body start x) as [o t1] eqn:Hb. cbn [fst] in Hx. subst o.
  cbn [mbind io_mbind io_bind].
  rewrite (IH (S start)) by (intros i y Hy; apply Hbody; right; exact Hy).
  rewrite imap_cons. cbn [concat]. rewrite Nat.add_0_r, Hb. cbn [snd].
  f_equal. f_equal. f_equal. apply imap_ext. intros i y _. cbn.
  rewrite Nat.add_succ_r. reflexivity.
Qed.

Lemma for_enumerate_stops {A : Type} (body : nat → A → io unit) (before after : list A)
    (x : A) (e : exn) (t : list event) :
  ∀ start : nat,
    (∀ i y, In y before → fst (body i y) = Return tt) →
    body (start + length before)%nat x = (Raise e, t) →
    for_enumerate body start (before ++ x :: after)
    = (Raise e, concat (imap (λ i y, snd (body (start + i)%nat y)) before) ++ t).
Proof.
  induction before as [|y before IH]; intros start Hbody Hx.
  - cbn [length] in Hx. rewrite Nat.add_0_r in Hx.
    cbn [app for_enumerate]. rewrite Hx. reflexivity.
  - cbn [app for_enumerate]. pose proof (Hbody start y (or_introl eq_refl)) as Hy.
    destruct (body start y) as [o t1] eqn:Hb. cbn [fst] in Hy. subst o.
    cbn [mbind io_mbind io_bind].
    rewrite (IH (S start)).
    + rewrite imap_cons. cbn [concat]. rewrite Nat.add_0_r, Hb. cbn [snd].
      rewrite <- app_assoc. f_equal. f_equal. f_equal. f_equal.
      apply imap_ext. intros i z _. cbn. rewrite Nat.add_succ_r. reflexivity.
    + intros i z Hz. apply Hbody. right. exact Hz.
    + cbn [length] in Hx. rewrite Nat.add_succ_r in Hx. exact Hx.
Qed.

Lemma show_tool_call_returns_iff (w : world) (index : nat) (tc : tool_call) :
  fst (show_tool_call w index tc) = Return tt ↔ displayable w tc = true.
Proof.
  destruct (show_tool_call_outcome w index tc) as (o & t & -> & _ & _ & H). exact H.
Qed.

Lemma displayable_calls_return (w : world) (calls : list tool_call) :
  Forall (λ tc, displayable w tc = true) calls →
  ∀ i tc, In tc calls → fst (show_tool_call w i tc) = Return tt.
Proof.
  intros Hall i tc Hin. apply show_tool_call_returns_iff.
  rewrite List.Forall_forall in Hall. apply Hall, Hin.
Qed.

Lemma tool_call_loop_returns_iff (w : world) (calls : list tool_call) (start : nat) :
  fst (for_enumerate (show_tool_call w) start calls) = Return tt
  ↔ Forall (λ tc, displayable w tc = true) calls.
Proof.
  revert start. induction calls as [|tc calls IH]; intros start.
  - split; [constructor | reflexivity].
  - destruct (show_tool_call_outcome w start tc) as (o & t & Hs & _ & No & Hd).
    cbn [for_enumerate]. rewrite Hs. cbn [mbind io_mbind io_bind].
    destruct o as [[]|e|code]; [| |contradiction].
    + destruct (for_enumerate (show_tool_call w) (S start) calls) as [o2 t2] eqn:Hl.
      specialize (IH (S start)). rewrite Hl in IH. cbn [fst] in *. split.
      * intros H. constructor; [apply Hd; reflexivity | apply IH, H].
      * intros H. apply IH. inversion H; assumption.
    + cbn [fst]. split; [discriminate|].
      intros H. inversion H as [|? ? Htc _]. apply Hd in Htc. discriminate.
Qed.

(** X9: the listing of a response's tool calls runs the displays in response
    order, the call at position [i] (counted from 0) being numbered
    [start + i].  When every call is displayable the loop returns and its
    output is the concatenation of all displays.  Otherwise it stops at the
    first call whose display raises: its output is the displays of the calls
    before that one followed by what that display printed, the later calls
    are not shown, and the exception of that display leaves the loop. *)
Theorem tool_calls_are_listed_in_order (w : world) (calls : list tool_call) (start : nat) :
  (Forall (λ tc, displayable w tc = true) calls →
     for_enumerate (show_tool_call w) start calls
     = (Return tt,
        concat (imap (λ i tc, snd (show_tool_call w (start + i)%nat tc)) calls)))
  ∧ (∀ before tc after e t,
       calls = before ++ tc :: after →
       Forall (λ tc, displayable w tc = true) before →
       show_tool_call w (start + length before)%nat tc = (Raise e, t) →
       for_enumerate (show_tool_call w) start calls
       = (Raise e,
          concat (imap (λ i tc, snd (show_tool_call w (start + i)%nat tc)) before)
          ++ t)).
Proof.
  split.
  - intros Hall. apply for_enumerate_all_return.
    apply (displayable_calls_return w calls Hall).
  - intros before tc after e t -> Hall Htc.
    apply for_enumerate_stops; [|exact Htc].
    apply (displayable_calls_return w before Hall).
Qed.

Lemma tool_calls_are_listed_in_order_witness :
  for_enumerate (show_tool_call world_offline) 1
    [search_call "{}"; mcp_call; search_call "not json"]
  = (Return tt,
     [ Stdout (chr 10 +:+ "  1. search"); Stdout "     Arguments: {}";
       Stdout (chr 10 +:+ "  2. mcp");
       Stdout (chr 10 +:+ "  3. search"); Stdout "     Arguments: not json" ])
  ∧ for_enumerate (show_tool_call world_offline) 1
      [search_call "{}"; search_call long_integer; mcp_call]
    = (Raise int_digits_error,
       [ Stdout (chr 10 +:+ "  1. search"); Stdout "     Arguments: {}";
         Stdout (chr 10 +:+ "  2. search") ]).
Proof.
  split.
  - rewrite (proj1 (tool_calls_are_listed_in_order world_offline
                      [search_call "{}"; mcp_call; search_call "not json"] 1)).
    + reflexivity.
    + repeat constructor.
  - rewrite (proj2 (tool_calls_are_listed_in_order world_offline
                      [search_call "{}"; search_call long_integer; mcp_call] 1)
               [search_call "{}"] (search_call long_integer) [mcp_call]
               int_digits_error [Stdout (chr 10 +:+ "  2. search")]).
    + reflexivity.
    + reflexivity.
    + repeat constructor.
    + vm_compute. reflexivity.
Defined.

(** X10: what the display of one tool call does.  For a displayable call it
    returns normally after the heading, which shows the function name or,
    when the call has no [function] attribute, its type, and at most one
    further line; there is no further line exactly when the call has no
    [function] attribute or its argument string is empty.  A call whose
    [function] attribute is [None] raises AttributeError before anything is
    printed.  Any other call that is not displayable prints its heading and
    then lets escape the exception, of a class other than JSONDecodeError,
    that [json.loads] or [json.dumps] raised.  Everything the display prints
    goes to the standard stream. *)
Theorem tool_call_display_shape (w : world) (index : nat) (tc : tool_call) :
  (displayable w tc = true →
     ∃ rest,
       show_tool_call w index tc
       = (Return tt, tool_call_heading index (tool_display_name tc) :: rest)
       ∧ (length rest ≤ 1)%nat
       ∧ (rest = [] ↔ function tc = NoAttribute
                      ∨ ∃ f, function tc = Attr f ∧ arguments f = ""))
  ∧ (function tc = AttrNone →
     show_tool_call w index tc
     = (Raise {| exn_cls := OtherException "AttributeError";
                 exn_str := "'NoneType' object has no attribute 'name'";
                 status_code := None |}, []))
  ∧ (displayable w tc = false → function tc ≠ AttrNone →
     ∃ f e,
       function tc = Attr f
       ∧ show_tool_call w index tc = (Raise e, [tool_call_heading index (name f)])
       ∧ exn_cls e ≠ JSONDecodeError
       ∧ (json_loads w (arguments f) = inr e
          ∨ ∃ v, json_loads w (arguments f) = inl v ∧ json_dumps_indent2 w v = inr e))
  ∧ Forall is_stdout (snd (show_tool_call w index tc)).
Proof.
  assert (Hcls : ∀ e, is_JSONDecodeError e = false → exn_cls e ≠ JSONDecodeError).
  { intros e He Hc. unfold is_JSONDecodeError in He. rewrite Hc in He. discriminate. }
  split; [|split; [|split]].
  - unfold displayable, tool_display_name. intros Hd.
    destruct (function tc) as [| |f] eqn:Hf; [| discriminate |].
    + exists []. rewrite (show_tool_call_no_function w index tc Hf).
      split; [reflexivity|]. split; [cbn; lia|]. split; [auto | reflexivity].
    + destruct (String.eqb_spec (arguments f) "") as [Ha|Ha].
      * exists []. rewrite (show_tool_call_empty_arguments w index tc f Hf Ha).
        split; [reflexivity|]. split; [cbn; lia|]. split; [eauto | reflexivity].
      * assert (Ht : truthy (Some (arguments f)) = true)
          by (apply truthy_true_iff; eauto).
        rewrite Ht in Hd.
        assert (Hno : ¬ (Attr f = NoAttribute
                         ∨ ∃ f', Attr f = Attr f' ∧ arguments f' = "")).
        { intros [H|(f' & [= <-] & H)]; [discriminate | contradiction]. }
        destruct (json_loads w (arguments f)) as [v|e] eqn:Hl.
        -- destruct (json_dumps_indent2 w v) as [text|e] eqn:Hdump.
           ++ eexists [_].
              rewrite (show_tool_call_valid_json w index tc f v text Hf Hl Hdump Ha).
              split; [reflexivity|]. split; [cbn; lia|].
              split; [discriminate | intros H; contradiction].
           ++ eexists [_].
              rewrite (show_tool_call_dumps_raises w index tc f v e Hf Ha Hl Hdump), Hd.
              split; [reflexivity|]. split; [cbn; lia|].
              split; [discriminate | intros H; contradiction].
        -- eexists [_].
           rewrite (show_tool_call_loads_raises w index tc f e Hf Ha Hl), Hd.
           split; [reflexivity|]. split; [cbn; lia|].
           split; [discriminate | intros H; contradiction].
  - intros Hf. apply (show_tool_call_none_function w index tc Hf).
  - unfold displayable. intros Hd Hnone.
    destruct (function tc) as [| |f] eqn:Hf; [discriminate | contradiction |].
    destruct (String.eqb_spec (arguments f) "") as [Ha|Ha].
    + rewrite Ha in Hd. discriminate.
    + assert (Ht : truthy (Some (arguments f)) = true)
        by (apply truthy_true_iff; eauto).
      rewrite Ht in Hd. exists f.
      destruct (json_loads w (arguments f)) as [v|e] eqn:Hl.
      * destruct (json_dumps_indent2 w v) as [text|e] eqn:Hdump; [discriminate|].
        exists e. split; [reflexivity|].
        rewrite (show_tool_call_dumps_raises w index tc f v e Hf Ha Hl Hdump), Hd.
        split; [reflexivity|]. split; [apply Hcls, Hd | eauto].
      * exists e. split; [reflexivity|].
        rewrite (show_tool_call_loads_raises w index tc f e Hf Ha Hl), Hd.
        split; [reflexivity|]. split; [apply Hcls, Hd | auto].
  - destruct (show_tool_call_outcome w index tc) as (o & t & -> & Ht & _). exact Ht.
Qed.

Lemma tool_call_display_shape_witness :
  show_tool_call world_offline 4 none_call
  = (Raise {| exn_cls := OtherException "AttributeError";
              exn_str := "'NoneType' object has no attribute 'name'";
              status_code := None |}, [])
  ∧ ∃ f e,
      function (search_call long_integer) = Attr f
      ∧ show_tool_call world_offline 2 (search_call long_integer)
        = (Raise e, [tool_call_heading 2 (name f)])
      ∧ exn_cls e ≠ JSONDecodeError
      ∧ (json_loads world_offline (arguments f) = inr e
         ∨ ∃ v, json_loads world_offline (arguments f) = inl v
                ∧ json_dumps_indent2 world_offline v = inr e).
Proof.
  split.
  - apply (proj1 (proj2 (tool_call_display_shape world_offline 4 none_call))).
    reflexivity.
  - apply (proj1 (proj2 (proj2 (tool_call_display_shape world_offline 2
                                  (search_call long_integer))))).
    + vm_compute. reflexivity.
    + discriminate.
Defined.

(** X8: what routine 2 prints on a response with a first choice.  After its
    request it prints the "Model Reasoning" block only when the text content
    is a non-empty string.  When every tool call is displayable it then
    prints the tool-call block, a heading, the listing numbered from 1 and a
    blank line, only when there is at least one tool call (an absent list and
    an empty list are treated alike), followed by the JSON dump of the
    message, a blank line, the token count and the final blank line.  When
    the display of a call raises, the listing ends there: the routine reports
    that exception on the error stream, with the hint of its status code if
    it has one, prints its final blank line and returns; the JSON dump and
    the token count are not printed. *)
Theorem demo2_response_output (w : world) (g : globals) (resp : response) (ch : choice)
    (more : list choice) :
  create_reply w (client g) (demo2_request g) = inl resp →
  choices resp = ch :: more →
  (all_displayable w (choice_message ch) →
     demo2_mcp_completion w g =
       (Return tt,
        [ Stdout "🔧 Demo 2: Chat Completion with MCP Tools";
          Stdout (str_mul "-" 60);
          Create (client g) (demo2_request g) ]
        ++ match content (choice_message ch) with
           | Some (String c text) =>
               [ Stdout "Model Reasoning:"; Stdout (String c text); Stdout "" ]
           | _ => []
           end
        ++ match tool_calls (choice_message ch) with
           | Some (tc :: calls) =>
               [Stdout "🔧 MCP Tool Calls:"]
               ++ concat (imap (λ i x, snd (show_tool_call w (1 + i)%nat x))
                            (tc :: calls))
               ++ [Stdout ""]
           | _ => []
           end
        ++ [ Stdout "Final Message:";
             Stdout (message_json w (choice_message ch));
             Stdout "";
             Stdout (completed_line resp);
             Stdout "" ]))
  ∧ (∀ before tc after e t,
       tool_calls (choice_message ch) = Some (before ++ tc :: after) →
       Forall (λ x, displayable w x = true) before →
       show_tool_call w (1 + length before)%nat tc = (Raise e, t) →
       demo2_mcp_completion w g =
         (Return tt,
          [ Stdout "🔧 Demo 2: Chat Completion with MCP Tools";
            Stdout (str_mul "-" 60);
            Create (client g) (demo2_request g) ]
          ++ match content (choice_message ch) with
             | Some (String c text) =>
                 [ Stdout "Model Reasoning:"; Stdout (String c text); Stdout "" ]
             | _ => []
             end
          ++ [Stdout "🔧 MCP Tool Calls:"]
          ++ concat (imap (λ i x, snd (show_tool_call w (1 + i)%nat x)) before)
          ++ t
          ++ [Stderr (error_line e)]
          ++ (if status_is e 401 then [Stderr "   Check your GROQ_API_KEY"]
              else if status_is e 424 then
                [ Stderr "   MCP server dependency failed";
                  Stderr "   Check that MCP servers are reachable" ]
              else [])
          ++ [Stdout ""])).
Proof.
  intros H Hch.
  assert (Hreason : (if truthy (content (choice_message ch)) then
                       [ Stdout "Model Reasoning:";
                         Stdout (py_str (content (choice_message ch)));
                         Stdout "" ]
                     else [])
                    = match content (choice_message ch) with
                      | Some (String c text) =>
                          [ Stdout "Model Reasoning:"; Stdout (String c text); Stdout "" ]
                      | _ => []
                      end).
  { destruct (content (choice_message ch)) as [[|c text]|]; reflexivity. }
  split.
  - intros Hall. unfold all_displayable in Hall.
    rewrite (demo2_on_success w g resp ch more H Hch).
    + rewrite Hreason. f_equal. f_equal. f_equal. f_equal.
      destruct (tool_calls (choice_message ch)) as [[|tc calls]|]; try reflexivity.
      change (0 <? length (tc :: calls))%nat with true. cbv iota.
      rewrite (for_enumerate_all_return (show_tool_call w) (tc :: calls) 1
                 (displayable_calls_return w (tc :: calls) Hall)).
      reflexivity.
    + intros calls Hc. rewrite Hc in Hall. apply tool_call_loop_returns_iff, Hall.
  - intros before tc after e t Hcalls Hbefore Htc.
    rewrite (demo2_on_listing_error w g resp ch more (before ++ tc :: after) e
               (concat (imap (λ i x, snd (show_tool_call w (1 + i)%nat x)) before) ++ t)
               H Hch Hcalls).
    + rewrite Hreason. unfold demo2_hints. rewrite <- !app_assoc. reflexivity.
    + apply for_enumerate_stops; [|exact Htc].
      apply (displayable_calls_return w before Hbefore).
Qed.

Lemma demo2_response_output_witness :
  stdout_of (snd (demo2_mcp_completion world_tools globals_groq))
  = [ "🔧 Demo 2: Chat Completion with MCP Tools";
      str_mul "-" 60;
      "🔧 MCP Tool Calls:";
      chr 10 +:+ "  1. search";
      "     Arguments: [" +:+ chr 10 +:+ "       1," +:+ chr 10 +:+ "       2"
        +:+ chr 10 +:+ "     ]";
      chr 10 +:+ "  2. mcp";
      chr 10 +:+ "  3. search";
      "     Arguments: not json";
      "";
      "Final Message:";
      "{content: }";
      "";
      "✓ Completed in 42 tokens";
      "" ]
  ∧ demo2_mcp_completion world_long_integer globals_groq
    = (Return tt,
       [ Stdout "🔧 Demo 2: Chat Completion with MCP Tools";
         Stdout (str_mul "-" 60);
         Create (client globals_groq) (demo2_request globals_groq);
         Stdout "🔧 MCP Tool Calls:";
         Stdout (chr 10 +:+ "  1. search"); Stdout "     Arguments: {}";
         Stdout (chr 10 +:+ "  2. search");
         Stderr "❌ Error: Exceeds the limit (4300 digits) for integer string conversion";
         Stdout "" ]).
Proof.
  split.
  - rewrite (proj1 (demo2_response_output world_tools globals_groq tools_response
                      {| choice_message := tools_message |} [] eq_refl eq_refl)).
    + reflexivity.
    + repeat constructor.
  - rewrite (proj2 (demo2_response_output world_long_integer globals_groq
                      long_integer_response
                      {| choice_message := long_integer_message |} [] eq_refl eq_refl)
               [search_call "{}"] (search_call long_integer) [mcp_call]
               int_digits_error [Stdout (chr 10 +:+ "  2. search")]).
    + reflexivity.
    + reflexivity.
    + repeat constructor.
    + vm_compute. reflexivity.
Defined.

(** ** The error stream *)

Lemma demo2_silent_iff (w : world) (g : globals) (resp : response) (ch : choice)
    (more : list choice) :
  create_reply w (client g) (demo2_request g) = inl resp →
  choices resp = ch :: more →
  stderr_of (snd (demo2_mcp_completion w g)) = [] ↔ all_displayable w (choice_message ch).
Proof.
  intros H Hch. unfold all_displayable.
  destruct (tool_calls (choice_message ch)) as [calls|] eqn:Hcalls; cbn [default].
  - destruct (tool_call_loop_outcome w calls 1) as (o & t & Hloop & Ht & Ho).
    pose proof (tool_call_loop_returns_iff w calls 1) as Hiff.
    rewrite Hloop in Hiff. cbn [fst] in Hiff.
    destruct o as [[]|e|code]; [| |contradiction].
    + split; [intros _; apply Hiff; reflexivity|]. intros _.
      rewrite (demo2_on_success w g resp ch more H Hch).
      * rewrite Hcalls, Hloop. cbn [snd]. rewrite !stderr_of_append.
        destruct (truthy (content (choice_message ch)));
          (destruct (0 <? length calls)%nat; [|reflexivity]);
          rewrite !stderr_of_append, (stderr_of_prints t Ht); reflexivity.
      * intros calls' Hc. rewrite Hcalls in Hc. injection Hc as <-.
        rewrite Hloop. reflexivity.
    + split.
      * rewrite (demo2_on_listing_error w g resp ch more calls e t H Hch Hcalls Hloop).
        cbn [snd]. rewrite !stderr_of_append, (stderr_of_prints t Ht).
        destruct (truthy (content (choice_message ch))); discriminate.
      * intros Hall. apply Hiff in Hall. discriminate.
  - split; [constructor|]. intros _.
    rewrite (demo2_on_success w g resp ch more H Hch).
    + rewrite Hcalls. cbn [snd]. rewrite !stderr_of_append.
      destruct (truthy (content (choice_message ch))); reflexivity.
    + intros calls' Hc. rewrite Hcalls in Hc. discriminate.
Qed.

(** X7: a routine writes to the error stream exactly when its request did
    not yield a response it could show.  For routines 1, 3 and 4 the error
    stream is empty if and only if the completion call returned a response
    with at least one choice (routine 4: or the routine was skipped); for
    routine 2, if and only if it returned such a response and every tool call
    of its first choice is displayable.  Hence a run in which the provider
    answers every request with such a response writes nothing to the error
    stream. *)
Theorem error_stream_is_silent_iff_success (w : world) (g : globals) :
  (stderr_of (snd (demo1_simple_completion w g)) = []
   ↔ ∃ resp ch more, create_reply w (client g) (demo1_request g) = inl resp
                     ∧ choices resp = ch :: more)
  ∧ (stderr_of (snd (demo2_mcp_completion w g)) = []
     ↔ ∃ resp ch more, create_reply w (client g) (demo2_request g) = inl resp
                       ∧ choices resp = ch :: more
                       ∧ all_displayable w (choice_message ch))
  ∧ (stderr_of (snd (demo3_discover_tools w g)) = []
     ↔ ∃ resp ch more, create_reply w (client g) (demo3_request g) = inl resp
                       ∧ choices resp = ch :: more)
  ∧ (stderr_of (snd (demo4_firecrawl_mcp w g)) = []
     ↔ truthy (FIRECRAWL_API_KEY g) = false
       ∨ ∃ resp ch more, create_reply w (client g) (demo4_request g) = inl resp
                         ∧ choices resp = ch :: more)
  ∧ ((∀ c r, ∃ resp ch more, create_reply w c r = inl resp ∧ choices resp = ch :: more
                              ∧ all_displayable w (choice_message ch)) →
     ∀ environ t, module_init environ = (Return g, t) →
       stderr_of (snd (script w environ)) = []).
Proof.
  assert (H1 : stderr_of (snd (demo1_simple_completion w g)) = []
     ↔ ∃ resp ch more, create_reply w (client g) (demo1_request g) = inl resp
                       ∧ choices resp = ch :: more).
  { split.
    - intros Hs. destruct (create_reply w (client g) (demo1_request g)) as [resp|e] eqn:H.
      + destruct (choices resp) as [|ch more] eqn:Hch; [|eauto].
        rewrite (demo1_on_empty_choices w g resp H Hch) in Hs. discriminate.
      + rewrite (demo1_on_error w g e H) in Hs. discriminate.
    - intros (resp & ch & more & H & Hch).
      rewrite (demo1_on_success w g resp ch more H Hch). reflexivity. }
  assert (H2 : stderr_of (snd (demo2_mcp_completion w g)) = []
     ↔ ∃ resp ch more, create_reply w (client g) (demo2_request g) = inl resp
                       ∧ choices resp = ch :: more
                       ∧ all_displayable w (choice_message ch)).
  { split.
    - intros Hs. destruct (create_reply w (client g) (demo2_request g)) as [resp|e] eqn:H.
      + destruct (choices resp) as [|ch more] eqn:Hch.
        * rewrite (demo2_on_empty_choices w g resp H Hch) in Hs. discriminate.
        * exists resp, ch, more. split; [reflexivity|]. split; [exact Hch|].
          apply (demo2_silent_iff w g resp ch more H Hch), Hs.
      + rewrite (demo2_on_error w g e H) in Hs. discriminate.
    - intros (resp & ch & more & H & Hch & Hall).
      apply (demo2_silent_iff w g resp ch more H Hch), Hall. }
  assert (H3 : stderr_of (snd (demo3_discover_tools w g)) = []
     ↔ ∃ resp ch more, create_reply w (client g) (demo3_request g) = inl resp
                       ∧ choices resp = ch :: more).
  { split.
    - intros Hs. destruct (create_reply w (client g) (demo3_request g)) as [resp|e] eqn:H.
      + destruct (choices resp) as [|ch more] eqn:Hch; [|eauto].
        rewrite (demo3_on_empty_choices w g resp H Hch) in Hs. discriminate.
      + rewrite (demo3_on_error w g e H) in Hs. discriminate.
    - intros (resp & ch & more & H & Hch).
      rewrite (demo3_on_success w g resp ch more H Hch). reflexivity. }
  assert (H4 : stderr_of (snd (demo4_firecrawl_mcp w g)) = []
     ↔ truthy (FIRECRAWL_API_KEY g) = false
       ∨ ∃ resp ch more, create_reply w (client g) (demo4_request g) = inl resp
                         ∧ choices resp = ch :: more).
  { destruct (truthy (FIRECRAWL_API_KEY g)) eqn:Hkey.
    - split.
      + intros Hs. right.
        destruct (create_reply w (client g) (demo4_request g)) as [resp|e] eqn:H.
        * destruct (choices resp) as [|ch more] eqn:Hch; [|eauto].
          rewrite (demo4_on_empty_choices w g resp Hkey H Hch) in Hs. discriminate.
        * rewrite (demo4_on_error w g e Hkey H) in Hs. discriminate.
      + intros [Hf | (resp & ch & more & H & Hch)]; [discriminate|].
        rewrite (demo4_on_success w g resp ch more Hkey H Hch). reflexivity.
    - split; [auto|]. intros _. rewrite (demo4_skipped w g Hkey). reflexivity. }
  split; [exact H1|]. split; [exact H2|]. split; [exact H3|]. split; [exact H4|].
  intros Hok environ t Hinit.
  assert (Hok' : ∀ c r, ∃ resp ch more,
             create_reply w c r = inl resp ∧ choices resp = ch :: more).
  { intros c r. destruct (Hok c r) as (resp & ch & more & Ha & Hb & _). eauto. }
  rewrite (script_after_init w environ g t Hinit). cbn [snd].
  pose proof (module_init_returns environ g t Hinit) as Hkey.
  pose proof Hinit as Ht. rewrite (module_init_trace environ Hkey) in Ht.
  injection Ht as _ <-.
  rewrite !stderr_of_append.
  rewrite (proj2 H1 (Hok' _ _)), (proj2 H2 (Hok _ _)), (proj2 H3 (Hok' _ _)).
  rewrite (proj2 H4 (or_intror (Hok' _ _))). reflexivity.
Qed.

Lemma error_stream_is_silent_iff_success_witness :
  stderr_of (snd (script (world_hello None) env_groq_firecrawl)) = [].
Proof.
  apply (proj2 (proj2 (proj2 (proj2
           (error_stream_is_silent_iff_success (world_hello None) globals_groq_firecrawl))))
           (λ _ _, ex_intro _ (hello_response None)
                     (ex_intro _ {| choice_message :=
                                      {| content := Some "hello"; tool_calls := Some [] |} |}
                        (ex_intro _ [] (conj eq_refl (conj eq_refl (Forall_nil_2 _))))))
           env_groq_firecrawl (snd (module_init env_groq_firecrawl))).
  reflexivity.
Defined.

(** ** Indentation of pretty-printed arguments *)

Example lines_examples :
  lines "" = [""]
  ∧ lines ("a" +:+ chr 10 +:+ "b") = ["a"; "b"]
  ∧ lines ("a" +:+ chr 10) = ["a"; ""].
Proof. repeat split. Qed.

Lemma lines_nonempty (s : string) : ∃ l ls, lines s = l :: ls.
Proof.
  induction s as [|c rest (l & ls & IH)]; [eexists _, _; reflexivity|].
  cbn [lines]. destruct (Ascii.eqb c (ascii_of_nat 10)); [eauto|].
  rewrite IH. eauto.
Qed.

Lemma lines_prefix (pad s : string) :
  single_line pad = true →
  lines (pad +:+ s)
  = match lines s with
    | l :: ls => (pad +:+ l) :: ls
    | [] => []
    end.
Proof.
  induction pad as [|c pad IH]; intros Hpad.
  - change ("" +:+ s) with s.
    destruct (lines_nonempty s) as (l & ls & Hs). rewrite Hs. reflexivity.
  - cbn [single_line] in Hpad. apply andb_prop in Hpad as [Hc Hpad].
    apply negb_true_iff in Hc.
    change (String c pad +:+ s) with (String c (pad +:+ s)).
    cbn [lines]. rewrite Hc, (IH Hpad).
    destruct (lines_nonempty s) as (l & ls & ->). reflexivity.
Qed.

(** X11: the replacement applied to pretty-printed arguments (line 140)
    keeps the text line by line: the first line is unchanged and every
    further line is prefixed with five spaces; no line is added, dropped or
    joined. *)
Theorem pretty_arguments_get_hanging_indent (s : string) :
  lines (str_replace (ascii_of_nat 10) (chr 10 +:+ "     ") s)
  = match lines s with
    | l :: ls => l :: map (λ x, "     " +:+ x) ls
    | [] => []
    end.
Proof.
  induction s as [|c rest IH]; [reflexivity|].
  cbn [str_replace lines].
  destruct (Ascii.eqb c (ascii_of_nat 10)) eqn:Hc.
  - change ((chr 10 +:+ "     ") +:+ str_replace (ascii_of_nat 10) (chr 10 +:+ "     ") rest)
      with (String (ascii_of_nat 10)
              ("     " +:+ str_replace (ascii_of_nat 10) (chr 10 +:+ "     ") rest)).
    cbn [lines]. rewrite Ascii.eqb_refl.
    rewrite (lines_prefix "     " _ eq_refl), IH.
    destruct (lines_nonempty rest) as (l & ls & ->). reflexivity.
  - cbn [lines]. rewrite Hc, IH.
    destruct (lines_nonempty rest) as (l & ls & ->). reflexivity.
Qed.

(** ** The entry point when a routine fails or exits *)

(** X12: [main] stops at the first routine that lets an exception escape or
    calls [sys.exit]: the routines after it are not run and the summary is
    not printed.  After an exception the output so far is followed by the
    fatal-error line and the process exits with status 1.  A [sys.exit]
    inside a routine, whichever of the four, is no [Exception]: the run ends
    with the status of that call and without the fatal-error line. *)
Theorem main_stops_at_first_failure (d1 d2 d3 d4 : io unit) (t1 t2 t3 t4 : list event) :
  (∀ e, d1 = (Raise e, t1) →
     main_with d1 d2 d3 d4 = (Exit 1, t1 ++ [Stderr (fatal_line e)]))
  ∧ (∀ e, d1 = (Return tt, t1) → d2 = (Raise e, t2) →
     main_with d1 d2 d3 d4 = (Exit 1, t1 ++ t2 ++ [Stderr (fatal_line e)]))
  ∧ (∀ e, d1 = (Return tt, t1) → d2 = (Return tt, t2) → d3 = (Raise e, t3) →
     main_with d1 d2 d3 d4 = (Exit 1, t1 ++ t2 ++ t3 ++ [Stderr (fatal_line e)]))
  ∧ (∀ e, d1 = (Return tt, t1) → d2 = (Return tt, t2) → d3 = (Return tt, t3) →
     d4 = (Raise e, t4) →
     main_with d1 d2 d3 d4 = (Exit 1, t1 ++ t2 ++ t3 ++ t4 ++ [Stderr (fatal_line e)]))
  ∧ (∀ code, d1 = (Exit code, t1) →
     main_with d1 d2 d3 d4 = (Exit code, t1))
  ∧ (∀ code, d1 = (Return tt, t1) → d2 = (Exit code, t2) →
     main_with d1 d2 d3 d4 = (Exit code, t1 ++ t2))
  ∧ (∀ code, d1 = (Return tt, t1) → d2 = (Return tt, t2) → d3 = (Exit code, t3) →
     main_with d1 d2 d3 d4 = (Exit code, t1 ++ t2 ++ t3))
  ∧ (∀ code, d1 = (Return tt, t1) → d2 = (Return tt, t2) → d3 = (Return tt, t3) →
     d4 = (Exit code, t4) →
     main_with d1 d2 d3 d4 = (Exit code, t1 ++ t2 ++ t3 ++ t4))
  ∧ (∀ code t, main_try d1 d2 d3 d4 = (Exit code, t) →
     main_with d1 d2 d3 d4 = (Exit code, t)).
Proof.
  repeat split.
  - intros e ->. reflexivity.
  - intros e -> ->. unfold main_with, main_try. io_run. rewrite <- app_assoc. reflexivity.
  - intros e -> -> ->. unfold main_with, main_try. io_run.
    rewrite <- !app_assoc. reflexivity.
  - intros e -> -> -> ->. unfold main_with, main_try. io_run.
    rewrite <- !app_assoc. reflexivity.
  - intros code ->. reflexivity.
  - intros code -> ->. reflexivity.
  - intros code -> -> ->. reflexivity.
  - intros code -> -> -> ->. reflexivity.
  - intros code t H. unfold main_with. rewrite H. reflexivity.
Qed.

Lemma main_stops_at_first_failure_witness :
  main_with (print "one") (print "two") (raise connection_error) (print "four")
  = (Exit 1, [Stdout "one"; Stdout "two"; Stderr "❌ Fatal error: Connection error."])
  ∧ main_with (print "one") (sys_exit 3) (print "three") (print "four")
    = (Exit 3, [Stdout "one"])
  ∧ main_with (print "one") (print "two") (print "three") (sys_exit 4)
    = (Exit 4, [Stdout "one"; Stdout "two"; Stdout "three"]).
Proof.
  pose proof (main_stops_at_first_failure (print "one") (print "two")
                (raise connection_error) (print "four")
                [Stdout "one"] [Stdout "two"] [] [])
    as (_ & _ & H3 & _).
  pose proof (main_stops_at_first_failure (print "one") (sys_exit 3)
                (print "three") (print "four")
                [Stdout "one"] [] [] [])
    as (_ & _ & _ & _ & _ & H6 & _).
  pose proof (main_stops_at_first_failure (print "one") (print "two")
                (print "three") (sys_exit 4)
                [Stdout "one"] [Stdout "two"] [Stdout "three"] [])
    as (_ & _ & _ & _ & _ & _ & _ & H8 & _).
  split; [exact (H3 connection_error eq_refl eq_refl eq_refl)|].
  split; [exact (H6 3 eq_refl eq_refl)|].
  exact (H8 4 eq_refl eq_refl eq_refl eq_refl).
Defined.
